(** * arteri-sensors: pulse transit time and pulse wave velocity pipeline

    A shallow embedding of the feature extraction and PTT/PWV estimation
    code of [pwv_script.py] and [script.py], and of the serial line readers
    of [script.py], [lucy_ppg_script/ppg_live.py] and
    [lucy_ppg_script/ppg_plotter.py] with the live plot and the raw-data
    file they feed, together with the properties of the conditioning,
    detection, pairing and velocity stages and of the recording loops.

    Numeric model.  Raw readings and millisecond timestamps are the integers
    produced by [int(...)] / read from the CSV columns: they are [Z] (numpy
    keeps them in int64 arrays; millisecond counters and ADC readings are
    non-negative and far below 2^63, where int64 subtraction is exact).  The
    filtered signal, the thresholds and the velocities are numpy [float64]
    values; they are modelled by exact rationals [Q], compared with [Qeq],
    [Qle] and [Qlt].  The order-theoretic facts (peaks, thresholds, spacing)
    do not depend on rounding; the arithmetic identities (window mean,
    velocity) are the exact-arithmetic reading of the same expressions, and
    the two numeric scenarios are re-evaluated in IEEE binary64 in module
    [binary64].

    Library model.  [numpy.convolve], [numpy.gradient], [numpy.mean], numpy
    indexing and [scipy.signal.find_peaks] are library code called by the
    scripts; modules [np] and [scipy] transcribe the documented algorithms
    of those routines (the argument swap and the empty-input check of
    [convolve], the plateau scan of [_local_maxima_1d], the priority-ordered
    suppression of [_select_by_peak_distance]). *)

From Stdlib Require Import ZArith QArith Lqa Lia List String Ascii Bool.
From Stdlib Require Import Permutation Sorted.
From Stdlib Require Import Floats.
From Stdlib Require Import Decimal DecimalString DecimalPos.
From stdpp Require Import base list.
Import ListNotations.

Set Default Proof Using "Type".

(** ** Python exceptions as an error monad *)

Inductive exn : Set :=
| ValueError
| IndexError.

Inductive result (A : Type) : Type :=
| Ok (a : A)
| Raise (e : exn).

Arguments Ok {A} a.
Arguments Raise {A} e.

Definition bind {A B : Type} (r : result A) (k : A -> result B) : result B :=
  match r with
  | Ok a => k a
  | Raise e => Raise e
  end.

Notation "'let!' x ':=' r 'in' k" := (bind r (fun x => k))
  (at level 10, x name, r at level 100, k at level 200).

(** Strict comparison on rationals, as a boolean test. *)
Definition Qlt_bool (a b : Q) : bool := negb (Qle_bool b a).

(** Read of sample [i] of a float buffer.  The scan of [_local_maxima_1d]
    reads positions [i - 1], [i] and [i_ahead] with [1 <= i < i_ahead <= n - 1],
    and the reported peaks are positions of the buffer, so no read falls
    outside it. *)
Definition at_ (x : list Q) (i : nat) : Q := nth i x 0%Q.

(** Boolean-mask indexing [a[keep]], for a mask as long as the array. *)
Fixpoint mask_select {A : Type} (keep : list bool) (a : list A) : list A :=
  match keep, a with
  | k :: keep', v :: a' =>
      if k then v :: mask_select keep' a' else mask_select keep' a'
  | _, _ => []
  end.

(** ** numpy *)

Module np.

(** [a[i]] for an integer [i]: negative indices count from the end, and an
    index outside [-n, n) raises IndexError. *)
Definition index {A : Type} (a : list A) (i : Z) : result A :=
  let n := Z.of_nat (length a) in
  let j := if (i <? 0)%Z then (n + i)%Z else i in
  if ((0 <=? j) && (j <? n))%Z then
    match a !! Z.to_nat j with
    | Some v => Ok v
    | None => Raise IndexError
    end
  else Raise IndexError.

(** [a[start:]] for [start >= 0]. *)
Definition slice_from {A : Type} (a : list A) (start : nat) : list A :=
  drop start a.

(** [a[start:stop]] for [0 <= start], [0 <= stop]; out-of-range bounds are
    clipped, never an error. *)
Definition slice {A : Type} (a : list A) (start stop : nat) : list A :=
  take (stop - start) (drop start a).

Definition sum (x : list Q) : Q := fold_right Qplus 0%Q x.

(** [np.mean(x)]; on an empty array numpy returns nan, which no caller
    below ever compares against a sample (an empty array has no peaks). *)
Definition mean (x : list Q) : Q :=
  (sum x / inject_Z (Z.of_nat (length x)))%Q.

(** [np.ones(w) / w] *)
Definition ones_over (w : nat) : list Q :=
  repeat (1 / inject_Z (Z.of_nat w))%Q w.

Definition dot (u v : list Q) : Q :=
  sum (zip_with Qmult u v).

(** [multiarray.correlate(a, v, 'valid')] for [len(a) >= len(v) >= 1]:
    one dot product per position where [v] overlaps [a] entirely. *)
Definition correlate_valid (a v : list Q) : list Q :=
  map (fun k => dot (take (length v) (drop k a)) v)
      (seq 0 (length a - length v + 1)).

(** [np.convolve(a, v, mode='valid')]: the longer argument is taken as the
    signal, empty arguments are rejected, and the result has
    [max(M, N) - min(M, N) + 1] entries. *)
Definition convolve_valid (a v : list Q) : result (list Q) :=
  let '(a, v) := if (length a <? length v)%nat then (v, a) else (a, v) in
  if (length a =? 0)%nat then Raise ValueError
  else if (length v =? 0)%nat then Raise ValueError
  else Ok (correlate_valid a (rev v)).

(** [np.gradient(f)] with unit spacing: central differences inside,
    one-sided differences at the two ends; fewer than two samples raise
    ValueError. *)
Definition gradient (f : list Q) : result (list Q) :=
  let n := length f in
  if (n <? 2)%nat then Raise ValueError
  else Ok (map (fun i =>
                  if (i =? 0)%nat then (at_ f 1 - at_ f 0)%Q
                  else if (i =? n - 1)%nat then (at_ f (n - 1) - at_ f (n - 2))%Q
                  else ((at_ f (i + 1) - at_ f (i - 1)) / 2)%Q)
               (seq 0 n)).

End np.

(** ** scipy.signal *)

Module scipy.

(** Inner loop of [_local_maxima_1d]:
    [while i_ahead < i_max and x[i_ahead] == x[i]: i_ahead += 1].
    The caller passes [fuel = i_max - i_ahead], the number of iterations
    after which the first test fails by itself. *)
Fixpoint plateau_end (x : list Q) (xi : Q) (i_max fuel i_ahead : nat) : nat :=
  match fuel with
  | O => i_ahead
  | S fuel' =>
      if (i_ahead <? i_max)%nat && Qeq_bool (at_ x i_ahead) xi
      then plateau_end x xi i_max fuel' (S i_ahead)
      else i_ahead
  end.

(** Outer loop of [_local_maxima_1d], from sample [i]; each entry is
    (midpoint, left edge, right edge) of one flat maximum. *)
Fixpoint local_maxima_loop (x : list Q) (i_max fuel i : nat)
  : list (nat * nat * nat) :=
  match fuel with
  | O => []
  | S fuel' =>
      if (i <? i_max)%nat then
        if Qlt_bool (at_ x (i - 1)) (at_ x i) then
          let i_ahead := plateau_end x (at_ x i) i_max (i_max - (i + 1)) (i + 1) in
          if Qlt_bool (at_ x i_ahead) (at_ x i) then
            let left := i in
            let right := (i_ahead - 1)%nat in
            (((left + right) / 2)%nat, left, right)
              :: local_maxima_loop x i_max fuel' (i_ahead + 1)
          else local_maxima_loop x i_max fuel' (i + 1)
        else local_maxima_loop x i_max fuel' (i + 1)
      else []
  end.

(** [_local_maxima_1d(x)]: [i] starts at 1 and stops before the last
    sample, [i_max = x.shape[0] - 1] (for an empty [x] the loop is not
    entered, in C as here). *)
Definition _local_maxima_1d (x : list Q) : list (nat * nat * nat) :=
  local_maxima_loop x (length x - 1) (length x) 1.

Definition midpoints (m : list (nat * nat * nat)) : list nat :=
  map (fun e => fst (fst e)) m.

(** [_select_by_property(peak_properties, pmin, None)]:
    [keep = (pmin <= peak_properties)]. *)
Definition _select_by_property (peak_properties : list Q) (pmin : Q) : list bool :=
  map (fun h => Qle_bool pmin h) peak_properties.

(** [np.argsort(priority)]: indices in ascending order of priority; equal
    priorities are left in index order here (numpy does not fix their
    order, and the spacing property below holds for every visiting order
    that contains all positions, see [select_in_order_spaced]). *)
Fixpoint argsort_insert (priority : list Q) (j : nat) (sorted : list nat) : list nat :=
  match sorted with
  | [] => [j]
  | k :: rest =>
      if Qle_bool (at_ priority j) (at_ priority k) then j :: k :: rest
      else k :: argsort_insert priority j rest
  end.

Definition argsort (priority : list Q) : list nat :=
  fold_right (argsort_insert priority) [] (seq 0 (length priority)).

(** [k = j - 1; while 0 <= k and peaks[j] - peaks[k] < distance_:
       keep[k] = 0; k -= 1], with [k1 = k + 1]. *)
Fixpoint suppress_earlier (peaks : list nat) (pj : nat) (distance_ : Z)
         (keep : list bool) (k1 : nat) : list bool :=
  match k1 with
  | O => keep
  | S k =>
      if (Z.of_nat pj - Z.of_nat (nth k peaks 0%nat) <? distance_)%Z
      then suppress_earlier peaks pj distance_ (<[k:=false]> keep) k
      else keep
  end.

(** [k = j + 1; while k < peaks_size and peaks[k] - peaks[j] < distance_:
       keep[k] = 0; k += 1], where [later] is [peaks[k:]]. *)
Fixpoint suppress_later (later : list nat) (pj : nat) (distance_ : Z)
         (keep : list bool) (k : nat) : list bool :=
  match later with
  | [] => keep
  | pk :: later' =>
      if (Z.of_nat pk - Z.of_nat pj <? distance_)%Z
      then suppress_later later' pj distance_ (<[k:=false]> keep) (S k)
      else keep
  end.

(** One iteration of the priority loop, for the peak at position [j]. *)
Definition suppress_around (peaks : list nat) (distance_ : Z)
           (keep : list bool) (j : nat) : list bool :=
  match keep !! j with
  | Some true =>
      let pj := nth j peaks 0%nat in
      let keep := suppress_earlier peaks pj distance_ keep j in
      suppress_later (drop (S j) peaks) pj distance_ keep (S j)
  | _ => keep
  end.

(** The priority loop over a given visiting order (highest priority
    first). *)
Definition select_in_order (peaks : list nat) (distance_ : Z)
           (order : list nat) : list bool :=
  fold_left (suppress_around peaks distance_) order
            (repeat true (length peaks)).

(** [_select_by_peak_distance(peaks, priority, distance)]:
    [for i in range(peaks_size - 1, -1, -1): j = priority_to_position[i]]. *)
Definition _select_by_peak_distance (peaks : list nat) (priority : list Q)
           (distance : Z) : list bool :=
  select_in_order peaks distance (rev (argsort priority)).

(** [find_peaks(x, height=height, distance=distance)]; the other
    conditions are left at None. *)
Definition find_peaks (x : list Q) (height : Q) (distance : option Z)
  : result (list nat) :=
  if match distance with Some d => (d <? 1)%Z | None => false end
  then Raise ValueError
  else
    let peaks := midpoints (_local_maxima_1d x) in
    let peak_heights := map (at_ x) peaks in
    let keep := _select_by_property peak_heights height in
    let peaks := mask_select keep peaks in
    match distance with
    | None => Ok peaks
    | Some d =>
        let keep := _select_by_peak_distance peaks (map (at_ x) peaks) d in
        Ok (mask_select keep peaks)
    end.

End scipy.

(** ** Python built-ins on strings *)

Module builtins.

(** [s.split(',')]: one field more than there are commas. *)
Fixpoint split_comma (s : string) : list string :=
  match s with
  | EmptyString => [EmptyString]
  | String c rest =>
      if Ascii.eqb c ","%char then EmptyString :: split_comma rest
      else match split_comma rest with
           | field :: fields => String c field :: fields
           | [] => [String c EmptyString]
           end
  end.

Definition is_space (c : ascii) : bool :=
  let n := nat_of_ascii c in
  ((9 <=? n) && (n <=? 13) || (28 <=? n) && (n <=? 32))%nat.

Definition is_digit (c : ascii) : bool :=
  let n := nat_of_ascii c in
  ((48 <=? n) && (n <=? 57))%nat.

Fixpoint lstrip (s : list ascii) : list ascii :=
  match s with
  | c :: s' => if is_space c then lstrip s' else s
  | [] => []
  end.

Definition strip (s : list ascii) : list ascii :=
  rev (lstrip (rev (lstrip s))).

(** Decimal digits, single underscores allowed between digits only. *)
Fixpoint digits_value (acc : Z) (after_digit : bool) (s : list ascii) : option Z :=
  match s with
  | [] => if after_digit then Some acc else None
  | c :: s' =>
      if is_digit c
      then digits_value (10 * acc + (Z.of_nat (nat_of_ascii c) - 48))%Z true s'
      else if Ascii.eqb c "_"%char
           then if after_digit then digits_value acc false s' else None
           else None
  end.

(** [int(s)] on an ASCII string, base 10: surrounding whitespace, an
    optional sign, then digits; [None] stands for ValueError. *)
Definition int (s : string) : option Z :=
  match strip (list_ascii_of_string s) with
  | c :: s' =>
      if Ascii.eqb c "-"%char then option_map Z.opp (digits_value 0%Z false s')
      else if Ascii.eqb c "+"%char then digits_value 0%Z false s'
      else digits_value 0%Z false (c :: s')
  | [] => None
  end.

(** [min(a)] and [max(a)] of a list of integers: ValueError on an empty
    list. *)
Definition min (a : list Z) : result Z :=
  match a with
  | [] => Raise ValueError
  | v :: rest => Ok (fold_left Z.min rest v)
  end.

Definition max (a : list Z) : result Z :=
  match a with
  | [] => Raise ValueError
  | v :: rest => Ok (fold_left Z.max rest v)
  end.


(** [str(z)], also what [f"{z}"] gives for an integer: the decimal digits
    without leading zeros, after a minus sign when [z] is negative. *)
Definition str (z : Z) : string := NilZero.string_of_int (Z.to_int z).

End builtins.

(** ** pwv_script.py *)

Module pwv_script.

(** One row of the raw-data table: (timestamp_ms, ppg1, ppg2). *)
Definition sample : Type := (Z * Z * Z)%type.

Definition timestamp_ms (data : list sample) : list Z := map (fun r => fst (fst r)) data.
Definition ppg1 (data : list sample) : list Z := map (fun r => snd (fst r)) data.
Definition ppg2 (data : list sample) : list Z := map snd data.

Definition window_size : nat := 5.

(** [np.convolve(ppg, np.ones(window_size)/window_size, mode='valid')] *)
Definition ppg_filtered (ppg : list Z) : result (list Q) :=
  np.convolve_valid (map inject_Z ppg) (np.ones_over window_size).

(** [timestamps[window_size-1:]] *)
Definition timestamps_filtered (timestamps : list Z) : list Z :=
  np.slice_from timestamps (window_size - 1).

(** [find_peaks(filtered, height=np.mean(filtered), distance=30)] *)
Definition systolic_peaks (filtered : list Q) : result (list nat) :=
  scipy.find_peaks filtered (np.mean filtered) (Some 30%Z).

(** Body of the loop over the systolic peaks: [None] when the peak is
    skipped or has no candidate, [Some f] when [f] is appended. *)
Definition diastolic_peak (filtered : list Q) (peak : nat) : result (option Z) :=
  let search_start := (Z.of_nat peak + 10)%Z in
  let search_end := Z.min (Z.of_nat peak + 100) (Z.of_nat (length filtered) - 1) in
  if (search_start >=? search_end)%Z then Ok None
  else
    let! v := np.index filtered (Z.of_nat peak) in
    let! diastolic_candidates :=
      scipy.find_peaks
        (np.slice filtered (Z.to_nat search_start) (Z.to_nat search_end))
        ((3 # 10) * v)%Q None in
    match diastolic_candidates with
    | c :: _ => Ok (Some (search_start + Z.of_nat c)%Z)
    | [] => Ok None
    end.

Fixpoint diastolic_peaks_loop (filtered : list Q) (systolic : list nat)
         (diastolic : list Z) : result (list Z) :=
  match systolic with
  | [] => Ok diastolic
  | peak :: rest =>
      let! d := diastolic_peak filtered peak in
      diastolic_peaks_loop filtered rest
        (match d with
         | Some f => diastolic ++ [f]
         | None => diastolic
         end)
  end.

Definition diastolic_peaks (filtered : list Q) (systolic : list nat) : result (list Z) :=
  diastolic_peaks_loop filtered systolic [].

(** [0 < ptt < 300] *)
Definition plausible (ptt : Z) : bool := ((0 <? ptt) && (ptt <? 300))%Z.

Fixpoint calculate_ptt_loop (timestamps indices1 indices2 : list Z)
         (range : list nat) (ptt_values : list Z) : result (list Z) :=
  match range with
  | [] => Ok ptt_values
  | i :: range' =>
      let! i2 := np.index indices2 (Z.of_nat i) in
      let! t2 := np.index timestamps i2 in
      let! i1 := np.index indices1 (Z.of_nat i) in
      let! t1 := np.index timestamps i1 in
      let ptt := (t2 - t1)%Z in
      calculate_ptt_loop timestamps indices1 indices2 range'
        (if plausible ptt then ptt_values ++ [ptt] else ptt_values)
  end.

Definition calculate_ptt (timestamps indices1 indices2 : list Z) : result (list Z) :=
  let min_indices := Nat.min (length indices1) (length indices2) in
  calculate_ptt_loop timestamps indices1 indices2 (seq 0 min_indices) [].

(** The velocity list computed for one transit-time list; it stays empty
    unless [distance_cm > 0] and the transit-time list is non-empty. *)
Definition pwv (distance_cm : Q) (ptt_values : list Z) : list Q :=
  if Qlt_bool 0 distance_cm then
    let distance_m := (distance_cm / 100)%Q in
    match ptt_values with
    | [] => []
    | _ => map (fun ptt => (distance_m / (inject_Z ptt / 1000))%Q) ptt_values
    end
  else [].

Record analysis : Type := {
  ptt_systolic : list Z;
  ptt_diastolic : list Z;
  pwv_systolic : list Q;
  pwv_diastolic : list Q
}.

(** [process_csv_file] from the loaded table to the returned dictionary
    (printing, plotting and file output left out). *)
Definition process_csv_file (data : list sample) (distance_cm : Q) : result analysis :=
  let timestamps := timestamp_ms data in
  let! ppg1_filtered := ppg_filtered (ppg1 data) in
  let! ppg2_filtered := ppg_filtered (ppg2 data) in
  let timestamps_filtered := timestamps_filtered timestamps in
  let! ppg1_vpg := np.gradient ppg1_filtered in
  let! ppg2_vpg := np.gradient ppg2_filtered in
  let! ppg1_systolic_peaks := systolic_peaks ppg1_filtered in
  let! ppg2_systolic_peaks := systolic_peaks ppg2_filtered in
  let! ppg1_diastolic_peaks := diastolic_peaks ppg1_filtered ppg1_systolic_peaks in
  let! ppg2_diastolic_peaks := diastolic_peaks ppg2_filtered ppg2_systolic_peaks in
  let! ptt_systolic := calculate_ptt timestamps_filtered
                    (map Z.of_nat ppg1_systolic_peaks)
                    (map Z.of_nat ppg2_systolic_peaks) in
  let! ptt_diastolic := calculate_ptt timestamps_filtered
                     ppg1_diastolic_peaks ppg2_diastolic_peaks in
  Ok {| ptt_systolic := ptt_systolic;
        ptt_diastolic := ptt_diastolic;
        pwv_systolic := pwv distance_cm ptt_systolic;
        pwv_diastolic := pwv distance_cm ptt_diastolic |}.

End pwv_script.

(** ** script.py *)

Module script.

(** The mutable fields of a [PTTCalculator] instance (the serial handle
    and the output folder are left out). *)
Record PTTCalculator : Type := {
  ppg1_data : list Z;
  ppg2_data : list Z;
  timestamps : list Z;
  ptt_values : list Z;
  all_ptt_values : list Z;
  is_collecting : bool;
  collection_count : nat
}.

(** [__init__] *)
Definition init : PTTCalculator :=
  {| ppg1_data := []; ppg2_data := []; timestamps := [];
     ptt_values := []; all_ptt_values := [];
     is_collecting := false; collection_count := 0 |}.

(** [self.is_collecting = b] *)
Definition set_is_collecting (b : bool) (self : PTTCalculator) : PTTCalculator :=
  {| ppg1_data := ppg1_data self;
     ppg2_data := ppg2_data self;
     timestamps := timestamps self;
     ptt_values := ptt_values self;
     all_ptt_values := all_ptt_values self;
     is_collecting := b;
     collection_count := collection_count self |}.

(** [self.ppg1_data = []; self.ppg2_data = []; self.timestamps = []] *)
Definition clear_buffers (self : PTTCalculator) : PTTCalculator :=
  {| ppg1_data := [];
     ppg2_data := [];
     timestamps := [];
     ptt_values := ptt_values self;
     all_ptt_values := all_ptt_values self;
     is_collecting := is_collecting self;
     collection_count := collection_count self |}.

(** [self.timestamps.append(timestamp); self.ppg1_data.append(ppg1);
    self.ppg2_data.append(ppg2)] *)
Definition append_sample (timestamp ppg1 ppg2 : Z) (self : PTTCalculator) : PTTCalculator :=
  {| ppg1_data := ppg1_data self ++ [ppg1];
     ppg2_data := ppg2_data self ++ [ppg2];
     timestamps := timestamps self ++ [timestamp];
     ptt_values := ptt_values self;
     all_ptt_values := all_ptt_values self;
     is_collecting := is_collecting self;
     collection_count := collection_count self |}.

Definition window_size : nat := 5.

(** The PTT loop of [process_data]:
    [ptt = abs(timestamps_filtered[ppg2_peaks[i]] - timestamps_filtered[ppg1_peaks[i]])]. *)
Fixpoint ptt_loop (timestamps_filtered ppg1_peaks ppg2_peaks : list Z)
         (range : list nat) (ptt_values : list Z) : result (list Z) :=
  match range with
  | [] => Ok ptt_values
  | i :: range' =>
      let! i2 := np.index ppg2_peaks (Z.of_nat i) in
      let! t2 := np.index timestamps_filtered i2 in
      let! i1 := np.index ppg1_peaks (Z.of_nat i) in
      let! t1 := np.index timestamps_filtered i1 in
      let ptt := Z.abs (t2 - t1) in
      ptt_loop timestamps_filtered ppg1_peaks ppg2_peaks range'
        (if ((0 <? ptt) && (ptt <? 300))%Z then ptt_values ++ [ptt] else ptt_values)
  end.

(** The block under [# Calculate PTT for each beat]: the list
    [ptt_values] that [process_data] builds. *)
Definition beat_ptt (timestamps_filtered ppg1_peaks ppg2_peaks : list Z)
  : result (list Z) :=
  if ((0 <? length ppg1_peaks) && (0 <? length ppg2_peaks))%nat then
    let min_peaks := Nat.min (length ppg1_peaks) (length ppg2_peaks) in
    ptt_loop timestamps_filtered ppg1_peaks ppg2_peaks (seq 0 min_peaks) []
  else Ok [].

(** [process_data]: the new object state and the returned value
    ([None] for the bare [return]); plots and files are left out. *)
Definition process_data (self : PTTCalculator)
  : result (PTTCalculator * option (list Z)) :=
  if ((length (ppg1_data self) <? 50) || (length (ppg2_data self) <? 50))%nat
  then Ok (self, None)
  else
    let count := S (collection_count self) in
    let ppg1 := map inject_Z (ppg1_data self) in
    let ppg2 := map inject_Z (ppg2_data self) in
    let! ppg1_filtered := np.convolve_valid ppg1 (np.ones_over window_size) in
    let! ppg2_filtered := np.convolve_valid ppg2 (np.ones_over window_size) in
    let timestamps_filtered := np.slice_from (timestamps self) (window_size - 1) in
    let! ppg1_peaks := scipy.find_peaks ppg1_filtered (np.mean ppg1_filtered) (Some 30%Z) in
    let! ppg2_peaks := scipy.find_peaks ppg2_filtered (np.mean ppg2_filtered) (Some 30%Z) in
    let! values := beat_ptt timestamps_filtered
                     (map Z.of_nat ppg1_peaks) (map Z.of_nat ppg2_peaks) in
    let stored :=
      match values with
      | [] => (ptt_values self, all_ptt_values self)
      | _ => (values, all_ptt_values self ++ values)
      end in
    Ok ({| ppg1_data := ppg1_data self;
           ppg2_data := ppg2_data self;
           timestamps := timestamps self;
           ptt_values := fst stored;
           all_ptt_values := snd stored;
           is_collecting := is_collecting self;
           collection_count := count |},
        Some values).

Section CollectData.

(** Python's [int] on a field; [None] stands for ValueError. *)
Variable int : string -> option Z.

(** [timestamp, ppg1, ppg2 = map(int, parts)] for three parts. *)
Definition unpack_ints (parts : list string) : result (Z * Z * Z) :=
  match parts with
  | [a; b; c] =>
      match int a with
      | None => Raise ValueError
      | Some timestamp =>
          match int b with
          | None => Raise ValueError
          | Some ppg1 =>
              match int c with
              | None => Raise ValueError
              | Some ppg2 => Ok (timestamp, ppg1, ppg2)
              end
          end
      end
  | _ => Raise ValueError
  end.

(** The [try] block of the loop body. *)
Definition try_append (self : PTTCalculator) (line : string) : result PTTCalculator :=
  let parts := builtins.split_comma line in
  if (length parts =? 3)%nat then
    let! fields := unpack_ints parts in
    let '(timestamp, ppg1, ppg2) := fields in
    Ok (append_sample timestamp ppg1 ppg2 self)
  else Ok self.

(** One iteration of the [while True] loop of [collect_data], on the
    decoded and stripped line.  [Raise] is an exception that leaves the
    loop. *)
Definition collect_line (self : PTTCalculator) (line : string) : result PTTCalculator :=
  if String.eqb line "START_DATA_COLLECTION" then
    Ok (clear_buffers (set_is_collecting true self))
  else if String.eqb line "END_DATA_COLLECTION" then
    let! processed := process_data (set_is_collecting false self) in
    Ok (fst processed)
  else if is_collecting self then
    match try_append self line with
    | Raise ValueError => Ok self
    | r => r
    end
  else Ok self.

(** The loop over the lines read so far. *)
Fixpoint collect_data (self : PTTCalculator) (lines : list string) : result PTTCalculator :=
  match lines with
  | [] => Ok self
  | line :: rest =>
      let! self' := collect_line self line in
      collect_data self' rest
  end.

End CollectData.

End script.

(** ** lucy_ppg_script/ppg_live.py *)

Module ppg_live.

(** The module-level lists and the rows written to the CSV file. *)
Record globals : Type := {
  timestamps : list Z;
  sensor1_values : list Z;
  sensor2_values : list Z;
  csv_rows : list (Z * Z * Z)
}.

(** [timestamps.append(timestamp); sensor1_values.append(sensor1);
    sensor2_values.append(sensor2); csv_writer.writerow([...])] *)
Definition append_sample (timestamp sensor1 sensor2 : Z) (g : globals) : globals :=
  {| timestamps := timestamps g ++ [timestamp];
     sensor1_values := sensor1_values g ++ [sensor1];
     sensor2_values := sensor2_values g ++ [sensor2];
     csv_rows := csv_rows g ++ [(timestamp, sensor1, sensor2)] |}.

(** The lists at import time. *)
Definition init : globals :=
  {| timestamps := []; sensor1_values := []; sensor2_values := []; csv_rows := [] |}.

Section ReadSerialData.

Variable int : string -> option Z.



End ReadSerialData.

(** The first loop of [main]:
    [while True: line = ...; if line == "START_RECORDING": break].
    The result is the rest of the stream; [None] when the lines read so
    far hold no start marker. *)
Fixpoint wait_for_start (lines : list string) : option (list string) :=
  match lines with
  | [] => None
  | line :: rest =>
      if String.eqb line "START_RECORDING" then Some rest
      else wait_for_start rest
  end.




End ppg_live.

(** ** The transit-time stage in the words of the specification *)

(** [timestamp(k)] for a feature index [k] of the series. *)
Definition timestamp (timestamps : list Z) (k : Z) : Z :=
  nth (Z.to_nat k) timestamps 0%Z.

(** [transit[i] = timestamp(channel2_indices[i]) - timestamp(channel1_indices[i])]
    for [i] in [[0, min(len1, len2))]. *)
Definition transit (timestamps channel1_indices channel2_indices : list Z) : list Z :=
  zip_with (fun k1 k2 => (timestamp timestamps k2 - timestamp timestamps k1)%Z)
           channel1_indices channel2_indices.

(** Retain only the values with [0 < value < 300], in order. *)
Definition transit_times_spec (timestamps channel1_indices channel2_indices : list Z) : list Z :=
  List.filter (fun v => ((0 <? v) && (v <? 300))%Z)
              (transit timestamps channel1_indices channel2_indices).


(** A feature index of a series of the given length. *)
Definition feature_index {A : Type} (series : list A) (k : Z) : Prop :=
  (0 <= k < Z.of_nat (length series))%Z.

(** ** The conditioning stage in the words of the specification *)

(** The arithmetic mean of raw samples [i] through [i + 4]. *)
Definition window_mean (raw : list Z) (i : nat) : Q :=
  (np.sum (map inject_Z (take 5 (drop i raw))) / 5)%Q.

(** ** The two numeric scenarios in IEEE binary64 *)

Module binary64.

(** [np.ones(5) / 5] *)
Definition kernel : list float := repeat (PrimFloat.div 1 5) 5.

Definition dot (u v : list float) : float :=
  fold_left PrimFloat.add (zip_with PrimFloat.mul u v) 0%float.

Definition correlate_valid (a v : list float) : list float :=
  map (fun k => dot (take (length v) (drop k a)) v)
      (seq 0 (length a - length v + 1)).

(** Channel 1 of the six-sample scenario, filtered. *)
Definition scenario_filtered : list float :=
  correlate_valid [100; 110; 120; 90; 80; 70]%float (rev kernel).

(** [distance_m / (ptt / 1000.0)] for [distance_cm = 20], [ptt = 150]. *)
Definition scenario_velocity : float :=
  PrimFloat.div (PrimFloat.div 20 100) (PrimFloat.div 150 1000).

End binary64.

(** ** The detection stages in the words of the specification *)

(** Samples [l .. r] of [x] form a flat maximum: they are equal, and the
    samples just before and just after are strictly lower. *)
Definition flat_maximum (x : list Q) (l r : nat) : Prop :=
  (1 <= l <= r)%nat /\ (r + 1 < length x)%nat /\
  (at_ x (l - 1) < at_ x l)%Q /\
  (forall k : nat, (l <= k <= r)%nat -> (at_ x k == at_ x l)%Q) /\
  (at_ x (r + 1) < at_ x l)%Q.

(** [m] is the index reported for a maximum of [x]: the middle (rounded
    down) of a flat maximum; a maximum of width one is reported at itself. *)
Definition peak_at (x : list Q) (m : nat) : Prop :=
  exists l r : nat, flat_maximum x l r /\ m = ((l + r) / 2)%nat.

(** [m] is an interior sample not exceeded by either neighbour. *)
Definition local_maximum (x : list Q) (m : nat) : Prop :=
  (1 <= m)%nat /\ (m + 1 < length x)%nat /\
  (at_ x (m - 1) <= at_ x m)%Q /\ (at_ x (m + 1) <= at_ x m)%Q.

(** A maximum of [x] at [m] whose height reaches the threshold. *)
Definition qualifying (x : list Q) (height : Q) (m : nat) : Prop :=
  peak_at x m /\ (height <= at_ x m)%Q.

(** Two sample positions closer than the minimal distance. *)
Definition within (distance : Z) (p q : nat) : Prop :=
  (Z.abs (Z.of_nat p - Z.of_nat q) < distance)%Z.

(** The flag of position [j] is final: if the peak at [j] is kept, every
    other peak within the minimal distance of it is dropped. *)
Definition settled (peaks : list nat) (distance : Z) (keep : list bool) (j : nat) : Prop :=
  keep !! j = Some true ->
  forall (k pk pj : nat),
    k <> j -> peaks !! k = Some pk -> peaks !! j = Some pj ->
    within distance pk pj -> keep !! k = Some false.

(** ** The collection loop in the words of the specification *)






(** ** A synthetic two-channel recording *)

Module scenario.

(** A triangular pulse of height [h] centred at sample [c]. *)
Definition bump (c h i : Z) : Z := Z.max 0 (h - Z.abs (i - c)).

(** Two beats, each a systolic pulse followed 25 samples later by a
    smaller diastolic one, on a baseline of 500. *)
Definition pulse (shift i : Z) : Z :=
  (500 + 40 * bump (20 + shift) 8 i + 20 * bump (45 + shift) 5 i
   + 40 * bump (90 + shift) 8 i + 20 * bump (115 + shift) 5 i)%Z.

(** 140 samples, 10 ms apart; channel 2 lags channel 1 by 3 samples. *)
Definition table : list pwv_script.sample :=
  map (fun i => let t := Z.of_nat i in ((10 * t)%Z, pulse 0 t, pulse 3 t))
      (seq 0 140).

Definition session : script.PTTCalculator :=
  {| script.ppg1_data := pwv_script.ppg1 table;
     script.ppg2_data := pwv_script.ppg2 table;
     script.timestamps := pwv_script.timestamp_ms table;
     script.ptt_values := [];
     script.all_ptt_values := [];
     script.is_collecting := false;
     script.collection_count := 0 |}.

End scenario.

(** ** The session aggregate of script.py *)

(** Both channels hold the 50 readings [process_data] asks for. *)
Definition session_ready (self : script.PTTCalculator) : Prop :=
  (50 <= length (script.ppg1_data self))%nat /\
  (50 <= length (script.ppg2_data self))%nat.


(** ** lucy_ppg_script/ppg_plotter.py *)

Module ppg_plotter.

(** The three lists [main] fills between the two markers. *)
Record recording : Type := {
  timestamps : list Z;
  sensor1_values : list Z;
  sensor2_values : list Z
}.


Definition append_sample (timestamp sensor1 sensor2 : Z) (r : recording) : recording :=
  {| timestamps := timestamps r ++ [timestamp];
     sensor1_values := sensor1_values r ++ [sensor1];
     sensor2_values := sensor2_values r ++ [sensor2] |}.

(** The first loop of [main] (the same loop opens [ppg_live.main]):
    [while True: line = ...; if line == "START_RECORDING": break].
    The result is the rest of the stream; [None] when the lines read so
    far hold no start marker and the loop is still reading. *)
Fixpoint wait_for_start (lines : list string) : option (list string) :=
  match lines with
  | [] => None
  | line :: rest =>
      if String.eqb line "START_RECORDING" then Some rest
      else wait_for_start rest
  end.

Section Main.

Variable int : string -> option Z.




End Main.

(** The loop [for i in range(len(timestamps))] that writes one line
    [f"{timestamps[i]},{sensor1_values[i]},{sensor2_values[i]}"] per
    sample; the file is the list of its lines. *)
Fixpoint write_rows (r : recording) (range : list nat) (file : list string)
  : result (list string) :=
  match range with
  | [] => Ok file
  | i :: range' =>
      let! timestamp := np.index (timestamps r) (Z.of_nat i) in
      let! sensor1 := np.index (sensor1_values r) (Z.of_nat i) in
      let! sensor2 := np.index (sensor2_values r) (Z.of_nat i) in
      write_rows r range'
        (file ++ [(builtins.str timestamp ++ "," ++ builtins.str sensor1
                   ++ "," ++ builtins.str sensor2)%string])
  end.

(** The raw-data file of [main]: the header line, then the samples. *)
Definition write_csv (r : recording) : result (list string) :=
  write_rows r (seq 0 (length (timestamps r))) ["timestamp,sensor1,sensor2"%string].

End ppg_plotter.

(** ** Sample lines *)

(** The sample carried by a line, when the line has three comma-separated
    fields that [int] accepts. *)
Definition parse_sample (int : string -> option Z) (line : string) : option (Z * Z * Z) :=
  match script.unpack_ints int (builtins.split_comma line) with
  | Ok fields => Some fields
  | Raise _ => None
  end.

(** The samples carried by a list of lines, in order. *)
Definition samples (int : string -> option Z) (lines : list string) : list (Z * Z * Z) :=
  omap (parse_sample int) lines.

Definition column1 (rows : list (Z * Z * Z)) : list Z := map (fun r => fst (fst r)) rows.
Definition column2 (rows : list (Z * Z * Z)) : list Z := map (fun r => snd (fst r)) rows.
Definition column3 (rows : list (Z * Z * Z)) : list Z := map snd rows.

(** ** Suppressed peaks *)

(** The peak at position [k] was dropped in favour of a kept peak [j]
    within the minimal distance that the priority loop visited, among the
    positions [done], before it ever visited [k]. *)
Definition dominated (peaks : list nat) (distance : Z) (keep : list bool)
           (done : list nat) (k : nat) : Prop :=
  exists (l1 : list nat) (j : nat) (l2 : list nat),
    done = l1 ++ j :: l2 /\ (k ∉ l1) /\ k <> j /\
    keep !! j = Some true /\
    exists pk pj : nat,
      peaks !! k = Some pk /\ peaks !! j = Some pj /\ within distance pk pj.

(** ** Outcomes of the offline analysis *)

(** The analysis with no transit time and no velocity. *)
Definition empty_analysis : pwv_script.analysis :=
  {| pwv_script.ptt_systolic := [];
     pwv_script.ptt_diastolic := [];
     pwv_script.pwv_systolic := [];
     pwv_script.pwv_diastolic := [] |}.

(** The synthetic recording with a stuck first sensor. *)
Definition stuck_table : list pwv_script.sample :=
  map (fun row => (fst (fst row), 512%Z, snd row)) scenario.table.

(** ** Integers as text *)

(** The number read off the digits [d] after the digits that gave [acc]. *)
Fixpoint uint_value (d : uint) (acc : Z) : Z :=
  match d with
  | Nil => acc
  | D0 l => uint_value l (10 * acc)
  | D1 l => uint_value l (10 * acc + 1)
  | D2 l => uint_value l (10 * acc + 2)
  | D3 l => uint_value l (10 * acc + 3)
  | D4 l => uint_value l (10 * acc + 4)
  | D5 l => uint_value l (10 * acc + 5)
  | D6 l => uint_value l (10 * acc + 6)
  | D7 l => uint_value l (10 * acc + 7)
  | D8 l => uint_value l (10 * acc + 8)
  | D9 l => uint_value l (10 * acc + 9)
  end%Z.

(** A text without comma and without white space. *)
Definition plain (s : string) : Prop :=
  Forall (fun c => Ascii.eqb c ","%char = false /\ builtins.is_space c = false)
         (list_ascii_of_string s).

(** The values an int64 column can hold; [builtins.str] and [builtins.int]
    are Python's conversions on them (Python 3.11 and later refuse texts of
    more than 4300 digits). *)
Definition int64 (v : Z) : Prop := (- 2 ^ 63 <= v < 2 ^ 63)%Z.

(** The three lists of a recording have one length. *)
Definition recording_aligned (r : ppg_plotter.recording) : Prop :=
  length (ppg_plotter.timestamps r) = length (ppg_plotter.sensor1_values r) /\
  length (ppg_plotter.timestamps r) = length (ppg_plotter.sensor2_values r).

(** ** The live plot *)



(** ** The same recording on another clock *)




(** ** The session of a loaded table *)


(** * Properties *)

(** ** Indexing *)

Lemma bind_ok {A B : Type} (r : result A) (k : A -> result B) (b : B) :
  bind r k = Ok b -> exists a, r = Ok a /\ k a = Ok b.
Proof.
  destruct r as [a|e]; simpl; intros H; [eauto | discriminate].
Qed.

Lemma index_of_nat {A : Type} (a : list A) (i : nat) (v : A) :
  a !! i = Some v -> np.index a (Z.of_nat i) = Ok v.
Proof.
  intros H. pose proof (lookup_lt_Some _ _ _ H) as Hlt.
  unfold np.index.
  destruct (Z.ltb_spec (Z.of_nat i) 0); [lia|].
  destruct (Z.leb_spec 0 (Z.of_nat i)); [|lia].
  destruct (Z.ltb_spec (Z.of_nat i) (Z.of_nat (length a))); [|lia].
  simpl. rewrite Nat2Z.id, H. reflexivity.
Qed.

Lemma index_feature (timestamps : list Z) (k : Z) :
  feature_index timestamps k ->
  np.index timestamps k = Ok (timestamp timestamps k).
Proof.
  intros [H0 Hn]. unfold timestamp.
  destruct (lookup_lt_is_Some_2 timestamps (Z.to_nat k)) as [v Hv]; [lia|].
  rewrite (nth_lookup_Some _ _ 0%Z _ Hv).
  rewrite <- (Z2Nat.id k) at 1 by lia. apply index_of_nat, Hv.
Qed.

(** ** Transit-time estimator *)

Lemma transit_exhausted (timestamps indices1 indices2 : list Z) (k : nat) :
  k = Nat.min (length indices1) (length indices2) ->
  transit timestamps (drop k indices1) (drop k indices2) = [].
Proof.
  intros Hk. unfold transit.
  destruct (Nat.min_dec (length indices1) (length indices2)) as [E|E].
  - rewrite (drop_ge indices1) by lia. reflexivity.
  - rewrite (drop_ge indices2) by lia. now destruct (drop k indices1).
Qed.

Lemma transit_step (timestamps indices1 indices2 : list Z) (k : nat) (a b : Z) :
  indices1 !! k = Some a -> indices2 !! k = Some b ->
  transit timestamps (drop k indices1) (drop k indices2)
  = (timestamp timestamps b - timestamp timestamps a)%Z
      :: transit timestamps (drop (S k) indices1) (drop (S k) indices2).
Proof.
  intros Ha Hb. now rewrite (drop_S _ _ _ Ha), (drop_S _ _ _ Hb).
Qed.

(** The four reads [indices2[i]], [timestamps[..]], [indices1[i]],
    [timestamps[..]] of one loop iteration, on feature indices. *)
Ltac read_pair H1 H2 Ha Hb :=
  rewrite (index_of_nat _ _ _ Hb); cbn [bind];
  rewrite (index_feature _ _ (Forall_lookup_1 _ _ _ _ H2 Hb)); cbn [bind];
  rewrite (index_of_nat _ _ _ Ha); cbn [bind];
  rewrite (index_feature _ _ (Forall_lookup_1 _ _ _ _ H1 Ha)); cbn [bind].

Lemma calculate_ptt_loop_spec (timestamps indices1 indices2 : list Z) :
  Forall (feature_index timestamps) indices1 ->
  Forall (feature_index timestamps) indices2 ->
  forall (m k : nat) (acc : list Z),
    (k + m)%nat = Nat.min (length indices1) (length indices2) ->
    pwv_script.calculate_ptt_loop timestamps indices1 indices2 (seq k m) acc
    = Ok (acc ++ transit_times_spec timestamps (drop k indices1) (drop k indices2)).
Proof.
  intros H1 H2. induction m as [|m IH]; intros k acc Hk; cbn [seq pwv_script.calculate_ptt_loop].
  - unfold transit_times_spec. rewrite transit_exhausted by lia.
    simpl. now rewrite app_nil_r.
  - destruct (lookup_lt_is_Some_2 indices1 k) as [a Ha]; [lia|].
    destruct (lookup_lt_is_Some_2 indices2 k) as [b Hb]; [lia|].
    read_pair H1 H2 Ha Hb. rewrite IH by lia.
    unfold transit_times_spec, pwv_script.plausible.
    rewrite (transit_step _ _ _ _ _ _ Ha Hb). simpl.
    destruct ((0 <? _) && (_ <? 300))%Z; simpl; [rewrite <- app_assoc|]; reflexivity.
Qed.


Lemma calculate_ptt_spec (timestamps indices1 indices2 : list Z) :
  Forall (feature_index timestamps) indices1 ->
  Forall (feature_index timestamps) indices2 ->
  pwv_script.calculate_ptt timestamps indices1 indices2
  = Ok (transit_times_spec timestamps indices1 indices2).
Proof.
  intros H1 H2. unfold pwv_script.calculate_ptt.
  rewrite (calculate_ptt_loop_spec _ _ _ H1 H2) by lia. reflexivity.
Qed.



Lemma filter_length_le {A : Type} (f : A -> bool) (l : list A) :
  (length (List.filter f l) <= length l)%nat.
Proof.
  induction l as [|a l IH]; simpl; [lia|]. destruct (f a); simpl; lia.
Qed.

Lemma transit_length (timestamps indices1 indices2 : list Z) :
  length (transit timestamps indices1 indices2)
  = Nat.min (length indices1) (length indices2).
Proof. unfold transit. apply length_zip_with. Qed.








(** ** Signal conditioner *)

Lemma at_lookup (x : list Q) (i : nat) (v : Q) :
  x !! i = Some v -> at_ x i = v.
Proof. intros H. unfold at_. now apply nth_lookup_Some. Qed.

Lemma dot_repeat (u : list Q) (c : Q) :
  forall n : nat, length u = n -> (np.dot u (repeat c n) == np.sum u * c)%Q.
Proof.
  unfold np.dot. induction u as [|a u IH]; intros n Hn; subst n; simpl.
  - lra.
  - rewrite IH by reflexivity. lra.
Qed.

Lemma dot_repeat_l (v : list Q) (c : Q) :
  forall n : nat, length v = n -> (np.dot (repeat c n) v == np.sum v * c)%Q.
Proof.
  unfold np.dot. induction v as [|a v IH]; intros n Hn; subst n; simpl.
  - lra.
  - rewrite IH by reflexivity. lra.
Qed.

Lemma sum_rev (v : list Q) : (np.sum (rev v) == np.sum v)%Q.
Proof.
  unfold np.sum. induction v as [|a v IH]; simpl; [lra|].
  rewrite fold_right_app. simpl.
  assert (G : forall (l : list Q) (z : Q),
             (fold_right Qplus z l == fold_right Qplus 0 l + z)%Q).
  { clear. induction l as [|b l IHl]; intros z; simpl; [lra|].
    rewrite IHl. lra. }
  rewrite G, IH. lra.
Qed.

Lemma correlate_valid_length (a v : list Q) :
  length (np.correlate_valid a v) = (length a - length v + 1)%nat.
Proof. unfold np.correlate_valid. now rewrite length_map, length_seq. Qed.

Lemma correlate_valid_lookup (a v : list Q) (k : nat) :
  (k < length a - length v + 1)%nat ->
  np.correlate_valid a v !! k = Some (np.dot (take (length v) (drop k a)) v).
Proof.
  intros Hk. unfold np.correlate_valid.
  rewrite list_lookup_fmap, lookup_seq_lt by lia. reflexivity.
Qed.

Lemma ppg_filtered_long (raw : list Z) :
  (5 <= length raw)%nat ->
  pwv_script.ppg_filtered raw
  = Ok (np.correlate_valid (map inject_Z raw) (repeat (1 / 5)%Q 5)).
Proof.
  intros Hn. unfold pwv_script.ppg_filtered, np.convolve_valid, np.ones_over,
    pwv_script.window_size.
  rewrite length_map, repeat_length.
  destruct (Nat.ltb_spec (length raw) 5); [lia|].
  rewrite length_map.
  destruct (Nat.eqb_spec (length raw) 0); [lia|].
  rewrite repeat_length. simpl Nat.eqb. cbv iota.
  rewrite List.rev_repeat. reflexivity.
Qed.



(** The scenario of C2 evaluated in binary64: the rounded products are
    whole numbers, and the two window sums are exactly 100.0 and 94.0. *)
Lemma scenario_filtered_binary64 :
  binary64.scenario_filtered = [100; 94]%float.
Proof. vm_compute. reflexivity. Qed.

Lemma take_drop_repeat {A : Type} (c : A) :
  forall m n k : nat, (k + n <= m)%nat -> take n (drop k (repeat c m)) = repeat c n.
Proof.
  induction m as [|m IH]; intros n k Hk.
  - assert (n = 0%nat) as -> by lia. now rewrite take_0.
  - destruct k as [|k]; simpl.
    + destruct n as [|n]; simpl; [reflexivity|].
      f_equal. apply (IH n 0%nat). lia.
    + apply IH. lia.
Qed.

Lemma ppg_filtered_short (raw : list Z) :
  (1 <= length raw < 5)%nat ->
  pwv_script.ppg_filtered raw
  = Ok (np.correlate_valid (repeat (1 / 5)%Q 5) (rev (map inject_Z raw))).
Proof.
  intros Hn. unfold pwv_script.ppg_filtered, np.convolve_valid, np.ones_over,
    pwv_script.window_size.
  rewrite length_map, repeat_length.
  destruct (Nat.ltb_spec (length raw) 5); [|lia].
  rewrite repeat_length. simpl Nat.eqb. cbv iota.
  rewrite length_map.
  destruct (Nat.eqb_spec (length raw) 0); [lia|]. reflexivity.
Qed.

Lemma process_data_guard (self : script.PTTCalculator) :
  (length (script.ppg1_data self) < 50)%nat \/
  (length (script.ppg2_data self) < 50)%nat ->
  script.process_data self = Ok (self, None).
Proof.
  intros H. unfold script.process_data.
  destruct (Nat.ltb_spec (length (script.ppg1_data self)) 50);
    destruct (Nat.ltb_spec (length (script.ppg2_data self)) 50);
    simpl; try reflexivity; lia.
Qed.




(** ** Empty session *)

(** C7 (evaluation at the failing input): on a table with no rows
    [pwv_script.process_csv_file] does not return empty stage results: the
    first convolution raises ValueError and the exception leaves the
    function.  The later stages would each return an empty result on empty
    input, and [script.process_data] on empty buffers takes the "not enough
    data points" exit, without an exception. *)
Theorem empty_session_raises_in_pwv_script :
  pwv_script.ppg_filtered [] = Raise ValueError /\
  (forall distance_cm : Q,
      pwv_script.process_csv_file [] distance_cm = Raise ValueError) /\
  pwv_script.systolic_peaks [] = Ok [] /\
  pwv_script.diastolic_peaks [] [] = Ok [] /\
  pwv_script.calculate_ptt [] [] [] = Ok [] /\
  (forall distance_cm : Q, pwv_script.pwv distance_cm [] = []) /\
  (forall self : script.PTTCalculator,
      script.ppg1_data self = [] -> script.process_data self = Ok (self, None)).
Proof.
  split; [reflexivity|]. split; [reflexivity|]. split; [reflexivity|].
  split; [reflexivity|]. split; [reflexivity|]. split.
  - intros d. unfold pwv_script.pwv. now destruct (Qlt_bool 0 d).
  - intros self E. apply process_data_guard. left. rewrite E. simpl. lia.
Qed.

(** ** Velocity estimator *)

Lemma Qlt_bool_iff (a b : Q) : Qlt_bool a b = true <-> (a < b)%Q.
Proof.
  unfold Qlt_bool. rewrite negb_true_iff. split.
  - intros H. apply Qnot_le_lt. intros Hle.
    apply Qle_bool_iff in Hle. congruence.
  - intros H. destruct (Qle_bool b a) eqn:E; [|reflexivity].
    apply Qle_bool_iff in E. apply Qlt_not_le in H. contradiction.
Qed.

Lemma Qlt_bool_false_iff (a b : Q) : Qlt_bool a b = false <-> (b <= a)%Q.
Proof.
  unfold Qlt_bool. rewrite negb_false_iff. apply Qle_bool_iff.
Qed.

Lemma pwv_positive_distance (distance_cm : Q) (ptt_values : list Z) :
  (0 < distance_cm)%Q ->
  pwv_script.pwv distance_cm ptt_values
  = map (fun ptt => (distance_cm / 100 / (inject_Z ptt / 1000))%Q) ptt_values.
Proof.
  intros Hd. unfold pwv_script.pwv.
  apply Qlt_bool_iff in Hd. rewrite Hd. now destruct ptt_values.
Qed.

(** C5: with [distance_cm > 0] there is exactly one velocity per transit
    time, the one at position [i] being
    [(distance_cm / 100) / (transit_time / 1000)]; with [distance_cm <= 0]
    the velocity list is empty; both velocity sets returned by
    [process_csv_file] are computed this way from the two transit-time
    sets; and 20 cm with 150 ms give 4/3 m/s. *)
Theorem velocity_estimator (distance_cm : Q) (ptt_values : list Z) :
  ((0 < distance_cm)%Q ->
   length (pwv_script.pwv distance_cm ptt_values) = length ptt_values /\
   forall (i : nat) (t : Z), ptt_values !! i = Some t ->
     exists v : Q,
       pwv_script.pwv distance_cm ptt_values !! i = Some v /\
       (v == (distance_cm / 100) / (inject_Z t / 1000))%Q) /\
  ((distance_cm <= 0)%Q -> pwv_script.pwv distance_cm ptt_values = []) /\
  (forall (data : list pwv_script.sample) (r : pwv_script.analysis),
      pwv_script.process_csv_file data distance_cm = Ok r ->
      pwv_script.pwv_systolic r = pwv_script.pwv distance_cm (pwv_script.ptt_systolic r) /\
      pwv_script.pwv_diastolic r = pwv_script.pwv distance_cm (pwv_script.ptt_diastolic r)) /\
  (exists v : Q, pwv_script.pwv 20 [150%Z] = [v] /\ (v == 4 / 3)%Q).
Proof.
  split; [|split; [|split]].
  - intros Hd. rewrite (pwv_positive_distance _ _ Hd). split.
    + apply length_map.
    + intros i t Hi. eexists. split; [|reflexivity].
      change (map ?f ?l) with (f <$> l).
      rewrite list_lookup_fmap, Hi. reflexivity.
  - intros Hd. unfold pwv_script.pwv.
    apply Qlt_bool_false_iff in Hd. now rewrite Hd.
  - intros data r Hr. unfold pwv_script.process_csv_file in Hr.
    repeat (apply bind_ok in Hr as (? & _ & Hr)).
    injection Hr as <-. split; reflexivity.
  - eexists. split; [reflexivity|]. reflexivity.
Qed.

Lemma velocity_estimator_witness :
  length (pwv_script.pwv 20 [150; 120]%Z) = 2%nat /\
  pwv_script.pwv (-1) [150; 120]%Z = [].
Proof.
  split.
  - apply (proj1 (velocity_estimator 20 [150; 120]%Z)). reflexivity.
  - apply (proj1 (proj2 (velocity_estimator (-1) [150; 120]%Z))). discriminate.
Defined.

(** The velocity scenario in binary64: 0.2 / 0.15 is the float next above
    4/3, within 2^-50 of it. *)
Lemma scenario_velocity_binary64 :
  binary64.scenario_velocity = 0x1.5555555555556p+0%float /\
  PrimFloat.ltb
    (PrimFloat.abs (PrimFloat.sub binary64.scenario_velocity (PrimFloat.div 4 3)))
    0x1p-50%float = true.
Proof. split; vm_compute; reflexivity. Qed.

(** ** Local maxima *)

Lemma Qeq_bool_false_neq (a b : Q) : Qeq_bool a b = false -> ~ (a == b)%Q.
Proof.
  intros H E. apply Qeq_bool_iff in E. congruence.
Qed.

Lemma plateau_end_spec (x : list Q) (xi : Q) (i_max : nat) :
  forall fuel a : nat,
    fuel = (i_max - a)%nat -> (a <= i_max)%nat ->
    (a <= scipy.plateau_end x xi i_max fuel a <= i_max)%nat /\
    (forall k : nat, (a <= k < scipy.plateau_end x xi i_max fuel a)%nat ->
                     (at_ x k == xi)%Q) /\
    ((scipy.plateau_end x xi i_max fuel a < i_max)%nat ->
     ~ (at_ x (scipy.plateau_end x xi i_max fuel a) == xi)%Q).
Proof.
  induction fuel as [|fuel IH]; intros a Hf Ha; simpl.
  - split; [lia|]. split; [intros k Hk; lia|intros Hk; lia].
  - destruct (Nat.ltb_spec a i_max) as [Hlt|]; [|lia]. simpl.
    destruct (Qeq_bool (at_ x a) xi) eqn:E.
    + destruct (IH (S a)) as (Hr & Heq & Hne); [lia|lia|].
      split; [lia|]. split; [|exact Hne].
      intros k Hk. destruct (Nat.eq_dec k a) as [->|Hka].
      * now apply Qeq_bool_iff.
      * apply Heq. lia.
    + split; [lia|]. split; [intros k Hk; lia|].
      intros _. now apply Qeq_bool_false_neq.
Qed.

Lemma local_maxima_loop_S (x : list Q) (i_max fuel i : nat) :
  scipy.local_maxima_loop x i_max (S fuel) i
  = if (i <? i_max)%nat then
      if Qlt_bool (at_ x (i - 1)) (at_ x i) then
        if Qlt_bool
             (at_ x (scipy.plateau_end x (at_ x i) i_max (i_max - (i + 1)) (i + 1)))
             (at_ x i)
        then (((i + (scipy.plateau_end x (at_ x i) i_max (i_max - (i + 1)) (i + 1) - 1)) / 2)%nat,
              i,
              (scipy.plateau_end x (at_ x i) i_max (i_max - (i + 1)) (i + 1) - 1)%nat)
               :: scipy.local_maxima_loop x i_max fuel
                    (scipy.plateau_end x (at_ x i) i_max (i_max - (i + 1)) (i + 1) + 1)
        else scipy.local_maxima_loop x i_max fuel (i + 1)
      else scipy.local_maxima_loop x i_max fuel (i + 1)
    else [].
Proof. reflexivity. Qed.

(** The flat maximum starting at a given left edge is unique. *)
Lemma flat_maximum_right_unique (x : list Q) (l r r' : nat) :
  flat_maximum x l r -> flat_maximum x l r' -> r = r'.
Proof.
  intros (Hl & _ & _ & He & Hd) (Hl' & _ & _ & He' & Hd').
  destruct (Nat.lt_trichotomy r r') as [H|[H|H]]; [|exact H|].
  - specialize (He' (r + 1)%nat ltac:(lia)). lra.
  - specialize (He (r' + 1)%nat ltac:(lia)). lra.
Qed.

(** What the scan finds when a rise is seen at [i]: the plateau that starts
    at [i] ends just before [e]. *)
Lemma rise_then_fall (x : list Q) (i : nat) :
  (1 <= i < length x - 1)%nat ->
  Qlt_bool (at_ x (i - 1)) (at_ x i) = true ->
  Qlt_bool (at_ x (scipy.plateau_end x (at_ x i) (length x - 1)
                     (length x - 1 - (i + 1)) (i + 1))) (at_ x i) = true ->
  flat_maximum x i
    (scipy.plateau_end x (at_ x i) (length x - 1) (length x - 1 - (i + 1)) (i + 1) - 1).
Proof.
  intros Hi Hrise Hfall.
  destruct (plateau_end_spec x (at_ x i) (length x - 1)
              (length x - 1 - (i + 1)) (i + 1) eq_refl ltac:(lia))
    as (Hr & Heq & _).
  set (e := scipy.plateau_end _ _ _ _ _) in *.
  apply Qlt_bool_iff in Hrise, Hfall.
  unfold flat_maximum. split; [lia|]. split; [lia|]. split; [exact Hrise|].
  split.
  - intros k Hk. destruct (Nat.eq_dec k i) as [->|]; [reflexivity|].
    apply Heq. lia.
  - replace (e - 1 + 1)%nat with e by lia. exact Hfall.
Qed.

(** Conversely, a flat maximum starting at [i] is what the scan sees. *)
Lemma flat_maximum_seen (x : list Q) (i r : nat) :
  flat_maximum x i r ->
  Qlt_bool (at_ x (i - 1)) (at_ x i) = true /\
  scipy.plateau_end x (at_ x i) (length x - 1) (length x - 1 - (i + 1)) (i + 1)
  = (r + 1)%nat /\
  Qlt_bool (at_ x (r + 1)) (at_ x i) = true.
Proof.
  intros (Hl & Hr & Hrise & Heq & Hfall).
  destruct (plateau_end_spec x (at_ x i) (length x - 1)
              (length x - 1 - (i + 1)) (i + 1) eq_refl ltac:(lia))
    as (Hb & Hpe & Hne).
  set (e := scipy.plateau_end _ _ _ _ _) in *.
  split; [now apply Qlt_bool_iff|]. split; [|now apply Qlt_bool_iff].
  destruct (Nat.lt_trichotomy e (r + 1)) as [H|[H|H]]; [|exact H|].
  - exfalso. apply Hne; [lia|]. apply Heq. lia.
  - exfalso. specialize (Hpe (r + 1)%nat ltac:(lia)). lra.
Qed.

(** No flat maximum starts strictly inside a plateau or right after it. *)
Lemma no_left_edge_within (x : list Q) (i e l r : nat) :
  (forall k : nat, (i <= k < e)%nat -> (at_ x k == at_ x i)%Q) ->
  (i < l < e)%nat -> ~ flat_maximum x l r.
Proof.
  intros Heq Hl (_ & _ & Hrise & _).
  pose proof (Heq (l - 1)%nat ltac:(lia)). pose proof (Heq l ltac:(lia)). lra.
Qed.

Lemma midpoint_bounds (l r : nat) :
  (l <= r)%nat -> (l <= (l + r) / 2 <= r)%nat.
Proof.
  intros H. split.
  - apply Nat.div_le_lower_bound; lia.
  - apply Nat.Div0.div_le_upper_bound; lia.
Qed.

Lemma local_maxima_loop_sound (x : list Q) :
  forall fuel i : nat, (1 <= i)%nat ->
    forall m l r : nat,
      (m, l, r) ∈ scipy.local_maxima_loop x (length x - 1) fuel i ->
      (i <= l)%nat /\ flat_maximum x l r /\ m = ((l + r) / 2)%nat.
Proof.
  induction fuel as [|fuel IH]; intros i Hi m l r Hin.
  - simpl in Hin. now apply elem_of_nil in Hin.
  - rewrite local_maxima_loop_S in Hin.
    destruct (Nat.ltb_spec i (length x - 1)) as [Hlt|];
      [|now apply elem_of_nil in Hin].
    destruct (Qlt_bool (at_ x (i - 1)) (at_ x i)) eqn:Hrise.
    + destruct (plateau_end_spec x (at_ x i) (length x - 1)
                  (length x - 1 - (i + 1)) (i + 1) eq_refl ltac:(lia))
        as (Hb & _ & _).
      destruct (Qlt_bool (at_ x (scipy.plateau_end _ _ _ _ _)) (at_ x i)) eqn:Hfall.
      * apply elem_of_cons in Hin as [E|Hin].
        -- injection E as -> -> ->. split; [lia|]. split; [|reflexivity].
           apply rise_then_fall; [lia|assumption|assumption].
        -- apply IH in Hin as (Hl & Hf & Hm); [|lia].
           split; [lia|]. split; assumption.
      * apply IH in Hin as (Hl & Hf & Hm); [|lia].
        split; [lia|]. split; assumption.
    + apply IH in Hin as (Hl & Hf & Hm); [|lia].
      split; [lia|]. split; assumption.
Qed.

Lemma local_maxima_loop_complete (x : list Q) :
  forall fuel i : nat, (1 <= i)%nat -> (length x - 1 - i <= fuel)%nat ->
    forall l r : nat, (i <= l)%nat -> flat_maximum x l r ->
      (((l + r) / 2)%nat, l, r) ∈ scipy.local_maxima_loop x (length x - 1) fuel i.
Proof.
  induction fuel as [|fuel IH]; intros i Hi Hfuel l r Hl Hflat.
  - exfalso. destruct Hflat as (? & ? & _). lia.
  - rewrite local_maxima_loop_S.
    destruct (Nat.ltb_spec i (length x - 1)) as [Hlt|];
      [|exfalso; destruct Hflat as (? & ? & _); lia].
    destruct (Nat.eq_dec l i) as [->|Hne].
    + destruct (flat_maximum_seen x i r Hflat) as (Hrise & He & Hfall).
      rewrite Hrise, He, Hfall.
      replace (r + 1 - 1)%nat with r by lia. apply elem_of_cons. now left.
    + destruct (Qlt_bool (at_ x (i - 1)) (at_ x i)) eqn:Hrise;
        [|apply IH; [lia|lia|lia|assumption]].
      destruct (plateau_end_spec x (at_ x i) (length x - 1)
                  (length x - 1 - (i + 1)) (i + 1) eq_refl ltac:(lia))
        as (Hb & Heq & _).
      destruct (Qlt_bool (at_ x (scipy.plateau_end _ _ _ _ _)) (at_ x i)) eqn:Hfall;
        [|apply IH; [lia|lia|lia|assumption]].
      set (e := scipy.plateau_end _ _ _ _ _) in *.
      assert (Hplateau : forall k : nat, (i <= k < e)%nat -> (at_ x k == at_ x i)%Q).
      { intros k Hk. destruct (Nat.eq_dec k i) as [->|]; [reflexivity|].
        apply Heq. lia. }
      assert (He : (e + 1 <= l)%nat).
      { destruct (Nat.le_gt_cases (e + 1) l) as [|Hle]; [assumption|exfalso].
        destruct (Nat.eq_dec l e) as [->|].
        - destruct Hflat as (_ & _ & Hup & _).
          apply Qlt_bool_iff in Hfall.
          pose proof (Hplateau (e - 1)%nat ltac:(lia)). lra.
        - apply (no_left_edge_within x i e l r Hplateau); [lia|assumption]. }
      apply elem_of_cons. right. apply IH; [lia|lia|lia|assumption].
Qed.

Lemma local_maxima_loop_sorted (x : list Q) :
  forall fuel i : nat, (1 <= i)%nat ->
    StronglySorted lt (scipy.midpoints (scipy.local_maxima_loop x (length x - 1) fuel i)).
Proof.
  induction fuel as [|fuel IH]; intros i Hi.
  - constructor.
  - rewrite local_maxima_loop_S.
    destruct (Nat.ltb_spec i (length x - 1)) as [Hlt|]; [|constructor].
    destruct (Qlt_bool (at_ x (i - 1)) (at_ x i)) eqn:Hrise; [|apply IH; lia].
    destruct (plateau_end_spec x (at_ x i) (length x - 1)
                (length x - 1 - (i + 1)) (i + 1) eq_refl ltac:(lia))
      as (Hb & _ & _).
    destruct (Qlt_bool (at_ x (scipy.plateau_end _ _ _ _ _)) (at_ x i)) eqn:Hfall;
      [|apply IH; lia].
    set (e := scipy.plateau_end _ _ _ _ _) in *.
    unfold scipy.midpoints. cbn [map fst].
    constructor; [apply IH; lia|].
    apply List.Forall_forall. intros m' Hm'.
    apply List.in_map_iff in Hm' as ([[m'' l'] r'] & E & Hin). simpl in E. subst m''.
    apply list_elem_of_In in Hin.
    apply local_maxima_loop_sound in Hin as (Hl & Hf & ->); [|lia].
    destruct Hf as (Hlr & _).
    pose proof (midpoint_bounds l' r' ltac:(lia)).
    pose proof (midpoint_bounds i (e - 1) ltac:(lia)). lia.
Qed.

(** The indices reported by [_local_maxima_1d] are exactly the maxima of
    [x], in strictly increasing order. *)
Lemma local_maxima_1d_spec (x : list Q) :
  StronglySorted lt (scipy.midpoints (scipy._local_maxima_1d x)) /\
  forall m : nat, m ∈ scipy.midpoints (scipy._local_maxima_1d x) <-> peak_at x m.
Proof.
  split; [apply local_maxima_loop_sorted; lia|].
  intros m. unfold scipy._local_maxima_1d, scipy.midpoints, peak_at. split.
  - intros Hin. apply list_elem_of_In, List.in_map_iff in Hin
      as ([[m' l] r] & E & Hin). simpl in E. subst m'.
    apply list_elem_of_In, local_maxima_loop_sound in Hin as (_ & Hf & Hm); [|lia].
    now exists l, r.
  - intros (l & r & Hf & ->).
    apply list_elem_of_In, List.in_map_iff. exists (((l + r) / 2)%nat, l, r).
    split; [reflexivity|]. apply list_elem_of_In.
    apply local_maxima_loop_complete; [lia|lia| |assumption].
    destruct Hf as (? & _). lia.
Qed.

Lemma peak_is_local_maximum (x : list Q) (m : nat) :
  peak_at x m -> local_maximum x m.
Proof.
  intros (l & r & (Hlr & Hr & Hup & Heq & Hdown) & ->).
  pose proof (midpoint_bounds l r ltac:(lia)) as Hm.
  set (m := ((l + r) / 2)%nat) in *.
  pose proof (Heq m ltac:(lia)) as Em.
  unfold local_maximum. split; [lia|]. split; [lia|]. split.
  - destruct (Nat.eq_dec m l) as [E|]; [rewrite E in *; lra|].
    pose proof (Heq (m - 1)%nat ltac:(lia)). lra.
  - destruct (Nat.eq_dec m r) as [E|]; [rewrite E in *; lra|].
    pose proof (Heq (m + 1)%nat ltac:(lia)). lra.
Qed.

(** ** Height and distance selection *)

Lemma select_by_property_filter (x : list Q) (height : Q) (peaks : list nat) :
  mask_select (scipy._select_by_property (map (at_ x) peaks) height) peaks
  = List.filter (fun p => Qle_bool height (at_ x p)) peaks.
Proof.
  induction peaks as [|p peaks IH]; simpl; [reflexivity|].
  rewrite IH. reflexivity.
Qed.

Lemma filter_sorted {A : Type} (R : A -> A -> Prop) (f : A -> bool) (l : list A) :
  StronglySorted R l -> StronglySorted R (List.filter f l).
Proof.
  induction 1 as [|a l Hs IH Hall]; simpl; [constructor|].
  destruct (f a); [|exact IH]. constructor; [exact IH|].
  apply List.Forall_forall. intros b Hb. apply List.filter_In in Hb as [Hb _].
  rewrite List.Forall_forall in Hall. now apply Hall.
Qed.

Lemma mask_select_lookup {A : Type} (keep : list bool) (l : list A) (v : A) :
  v ∈ mask_select keep l ->
  exists j : nat, keep !! j = Some true /\ l !! j = Some v.
Proof.
  revert l. induction keep as [|k keep IH]; intros [|a l] Hin; simpl in Hin;
    try (now apply elem_of_nil in Hin).
  destruct k.
  - apply elem_of_cons in Hin as [->|Hin]; [now exists 0%nat|].
    destruct (IH _ Hin) as (j & Hk & Hl). now exists (S j).
  - destruct (IH _ Hin) as (j & Hk & Hl). now exists (S j).
Qed.

Lemma mask_select_sorted {A : Type} (R : A -> A -> Prop) (keep : list bool) (l : list A) :
  StronglySorted R l -> StronglySorted R (mask_select keep l).
Proof.
  intros Hs. revert keep. induction Hs as [|a l Hs IH Hall]; intros [|k keep];
    simpl; try constructor.
  destruct k; [|apply IH]. constructor; [apply IH|].
  apply List.Forall_forall. intros b Hb.
  apply list_elem_of_In, mask_select_lookup in Hb as (j & _ & Hb).
  rewrite List.Forall_forall in Hall. apply Hall.
  apply list_elem_of_In, list_elem_of_lookup. now exists j.
Qed.

Lemma sorted_lookup_lt (l : list nat) :
  StronglySorted lt l ->
  forall (i j a b : nat), (i < j)%nat -> l !! i = Some a -> l !! j = Some b -> (a < b)%nat.
Proof.
  induction 1 as [|c l Hs IH Hall]; intros i j a b Hij Ha Hb.
  - now rewrite lookup_nil in Ha.
  - destruct j as [|j]; [lia|]. simpl in Hb. destruct i as [|i]; simpl in Ha.
    + injection Ha as ->. rewrite List.Forall_forall in Hall. apply Hall.
      apply list_elem_of_In, list_elem_of_lookup. now exists j.
    + apply (IH i j); [lia|assumption|assumption].
Qed.

Lemma sorted_lookup_inj (l : list nat) :
  StronglySorted lt l ->
  forall (i j a : nat), l !! i = Some a -> l !! j = Some a -> i = j.
Proof.
  intros Hs i j a Hi Hj.
  destruct (Nat.lt_trichotomy i j) as [H|[H|H]]; [|exact H|].
  - pose proof (sorted_lookup_lt l Hs i j a a H Hi Hj). lia.
  - pose proof (sorted_lookup_lt l Hs j i a a H Hj Hi). lia.
Qed.

Section PeakDistance.

Variable peaks : list nat.
Variable distance : Z.
Hypothesis peaks_sorted : StronglySorted lt peaks.

Lemma suppress_earlier_spec (pj : nat) :
  forall (k1 : nat) (keep : list bool),
    (k1 <= length peaks)%nat ->
    length (scipy.suppress_earlier peaks pj distance keep k1) = length keep /\
    (forall k : nat,
        scipy.suppress_earlier peaks pj distance keep k1 !! k = Some true ->
        keep !! k = Some true) /\
    (forall k : nat, (k1 <= k)%nat ->
        scipy.suppress_earlier peaks pj distance keep k1 !! k = keep !! k) /\
    (forall k pk : nat, (k < k1)%nat -> (k < length keep)%nat ->
        peaks !! k = Some pk -> (Z.of_nat pj - Z.of_nat pk < distance)%Z ->
        scipy.suppress_earlier peaks pj distance keep k1 !! k = Some false).
Proof using peaks_sorted.
  induction k1 as [|k IH]; intros keep Hk1; simpl.
  - split; [reflexivity|]. split; [auto|]. split; [auto|]. intros; lia.
  - destruct (lookup_lt_is_Some_2 peaks k ltac:(lia)) as [pk0 Hpk0].
    rewrite (nth_lookup_Some _ _ 0%nat _ Hpk0).
    destruct (Z.ltb_spec (Z.of_nat pj - Z.of_nat pk0) distance) as [Hnear|Hfar].
    + destruct (IH (<[k:=false]> keep) ltac:(lia)) as (Hlen & Hmono & Hsame & Hsup).
      rewrite length_insert in Hlen, Hsup.
      split; [exact Hlen|]. split; [|split].
      * intros k' Hk'. apply Hmono in Hk'.
        destruct (Nat.eq_dec k k') as [<-|Hne].
        -- destruct (Nat.lt_ge_cases k (length keep)).
           ++ rewrite list_lookup_insert_eq in Hk' by assumption. discriminate.
           ++ rewrite list_insert_ge in Hk' by assumption. exact Hk'.
        -- now rewrite list_lookup_insert_ne in Hk'.
      * intros k' Hk'. rewrite Hsame by lia.
        apply list_lookup_insert_ne. lia.
      * intros k' pk' Hk' Hlt Hpk' Hd.
        destruct (Nat.eq_dec k' k) as [->|Hne].
        -- rewrite Hsame by lia. now apply list_lookup_insert_eq.
        -- apply (Hsup k' pk'); [lia|assumption|assumption|assumption].
    + split; [reflexivity|]. split; [auto|]. split; [auto|].
      intros k' pk' Hk' Hlt Hpk' Hd. exfalso.
      destruct (Nat.eq_dec k' k) as [->|Hne].
      * rewrite Hpk0 in Hpk'. injection Hpk' as ->. lia.
      * pose proof (sorted_lookup_lt peaks peaks_sorted k' k pk' pk0
                      ltac:(lia) Hpk' Hpk0). lia.
Qed.

Lemma suppress_later_spec (pj : nat) :
  forall (later : list nat) (k : nat) (keep : list bool),
    later = drop k peaks ->
    length (scipy.suppress_later later pj distance keep k) = length keep /\
    (forall k' : nat,
        scipy.suppress_later later pj distance keep k !! k' = Some true ->
        keep !! k' = Some true) /\
    (forall k' : nat, (k' < k)%nat ->
        scipy.suppress_later later pj distance keep k !! k' = keep !! k') /\
    (forall k' pk : nat, (k <= k')%nat -> (k' < length keep)%nat ->
        peaks !! k' = Some pk -> (Z.of_nat pk - Z.of_nat pj < distance)%Z ->
        scipy.suppress_later later pj distance keep k !! k' = Some false).
Proof using peaks_sorted.
  induction later as [|pk0 later IH]; intros k keep Hdrop; simpl.
  - split; [reflexivity|]. split; [auto|]. split; [auto|].
    intros k' pk Hk' _ Hpk _. exfalso.
    assert (drop k peaks !! (k' - k)%nat = Some pk) as Hl
      by (rewrite lookup_drop; replace (k + (k' - k))%nat with k' by lia; exact Hpk).
    rewrite <- Hdrop in Hl. now rewrite lookup_nil in Hl.
  - assert (Hpk0 : peaks !! k = Some pk0).
    { rewrite <- (Nat.add_0_r k), <- lookup_drop, <- Hdrop. reflexivity. }
    assert (Hlater : later = drop (S k) peaks).
    { rewrite (drop_S _ _ _ Hpk0) in Hdrop. now injection Hdrop. }
    destruct (Z.ltb_spec (Z.of_nat pk0 - Z.of_nat pj) distance) as [Hnear|Hfar].
    + destruct (IH (S k) (<[k:=false]> keep) Hlater) as (Hlen & Hmono & Hsame & Hsup).
      rewrite length_insert in Hlen, Hsup.
      split; [exact Hlen|]. split; [|split].
      * intros k' Hk'. apply Hmono in Hk'.
        destruct (Nat.eq_dec k k') as [<-|Hne].
        -- destruct (Nat.lt_ge_cases k (length keep)).
           ++ rewrite list_lookup_insert_eq in Hk' by assumption. discriminate.
           ++ rewrite list_insert_ge in Hk' by assumption. exact Hk'.
        -- now rewrite list_lookup_insert_ne in Hk'.
      * intros k' Hk'. rewrite Hsame by lia.
        apply list_lookup_insert_ne. lia.
      * intros k' pk' Hk' Hlt Hpk' Hd.
        destruct (Nat.eq_dec k' k) as [->|Hne].
        -- rewrite Hsame by lia. now apply list_lookup_insert_eq.
        -- apply (Hsup k' pk'); [lia|assumption|assumption|assumption].
    + split; [reflexivity|]. split; [auto|]. split; [auto|].
      intros k' pk' Hk' Hlt Hpk' Hd. exfalso.
      destruct (Nat.eq_dec k' k) as [->|Hne].
      * rewrite Hpk0 in Hpk'. injection Hpk' as ->. lia.
      * pose proof (sorted_lookup_lt peaks peaks_sorted k k' pk0 pk'
                      ltac:(lia) Hpk0 Hpk'). lia.
Qed.

End PeakDistance.

Section PriorityLoop.

Variable peaks : list nat.
Variable distance : Z.
Hypothesis peaks_sorted : StronglySorted lt peaks.

Lemma suppress_around_spec (keep : list bool) (j : nat) :
  length keep = length peaks ->
  length (scipy.suppress_around peaks distance keep j) = length keep /\
  (forall k : nat,
      scipy.suppress_around peaks distance keep j !! k = Some true ->
      keep !! k = Some true) /\
  settled peaks distance (scipy.suppress_around peaks distance keep j) j.
Proof using peaks_sorted.
  intros Hlen. unfold scipy.suppress_around.
  destruct (keep !! j) as [[|]|] eqn:Hj;
    try (split; [reflexivity|]; split; [auto|];
         intros Hk; rewrite Hj in Hk; discriminate).
  pose proof (lookup_lt_Some _ _ _ Hj) as Hjn.
  destruct (lookup_lt_is_Some_2 peaks j ltac:(lia)) as [pj Hpj].
  rewrite (nth_lookup_Some _ _ 0%nat _ Hpj).
  destruct (suppress_earlier_spec peaks distance peaks_sorted pj j keep ltac:(lia))
    as (Hlen1 & Hmono1 & Hsame1 & Hsup1).
  set (keep1 := scipy.suppress_earlier peaks pj distance keep j) in *.
  destruct (suppress_later_spec peaks distance peaks_sorted pj
              (drop (S j) peaks) (S j) keep1 eq_refl)
    as (Hlen2 & Hmono2 & Hsame2 & Hsup2).
  set (keep2 := scipy.suppress_later _ pj distance keep1 (S j)) in *.
  split; [lia|]. split; [auto|].
  intros _ k pk pj' Hne Hpk Hpj' Hnear.
  rewrite Hpj in Hpj'. injection Hpj' as <-.
  pose proof (lookup_lt_Some _ _ _ Hpk) as Hkn.
  unfold within in Hnear.
  destruct (Nat.lt_ge_cases k j) as [Hlt|Hge].
  - rewrite Hsame2 by lia. apply (Hsup1 k pk); [lia|lia|assumption|lia].
  - apply (Hsup2 k pk); [lia|lia|assumption|lia].
Qed.

Lemma kept_false_stays (keep keep' : list bool) (k : nat) :
  length keep' = length keep ->
  (forall k' : nat, keep' !! k' = Some true -> keep !! k' = Some true) ->
  keep !! k = Some false -> keep' !! k = Some false.
Proof.
  intros Hlen Hmono Hk.
  pose proof (lookup_lt_Some _ _ _ Hk) as Hlt.
  destruct (lookup_lt_is_Some_2 keep' k ltac:(lia)) as [[|] Hb]; [|exact Hb].
  apply Hmono in Hb. congruence.
Qed.

Lemma priority_loop_invariant :
  forall (order done : list nat) (keep : list bool),
    length keep = length peaks ->
    (forall j : nat, j ∈ done -> settled peaks distance keep j) ->
    length (fold_left (scipy.suppress_around peaks distance) order keep)
    = length peaks /\
    forall j : nat, j ∈ done ++ order ->
      settled peaks distance
              (fold_left (scipy.suppress_around peaks distance) order keep) j.
Proof using peaks_sorted.
  induction order as [|j0 order IH]; intros done keep Hlen Hdone; simpl.
  - split; [exact Hlen|]. intros j Hj. rewrite app_nil_r in Hj. auto.
  - destruct (suppress_around_spec keep j0 Hlen) as (Hlen' & Hmono & Hset).
    destruct (IH (done ++ [j0]) (scipy.suppress_around peaks distance keep j0))
      as (Hl & Hall); [lia| |].
    + intros j Hj. apply elem_of_app in Hj as [Hj|Hj].
      * intros Hk k pk pj Hne Hpk Hpj Hnear.
        apply (kept_false_stays keep); [exact Hlen'|exact Hmono|].
        apply (Hdone j Hj (Hmono _ Hk) k pk pj); assumption.
      * apply list_elem_of_singleton in Hj as ->. exact Hset.
    + split; [exact Hl|]. intros j Hj. apply Hall.
      rewrite <- app_assoc. exact Hj.
Qed.

(** After the loop has visited every position, two kept peaks are never
    within the minimal distance of each other. *)
Lemma select_in_order_spaced (order : list nat) :
  (forall j : nat, (j < length peaks)%nat -> j ∈ order) ->
  forall p q : nat,
    p ∈ mask_select (scipy.select_in_order peaks distance order) peaks ->
    q ∈ mask_select (scipy.select_in_order peaks distance order) peaks ->
    (p < q)%nat -> (distance <= Z.of_nat q - Z.of_nat p)%Z.
Proof using peaks_sorted.
  intros Hall p q Hp Hq Hpq. unfold scipy.select_in_order in *.
  destruct (priority_loop_invariant order [] (repeat true (length peaks)))
    as (Hlen & Hset); [apply repeat_length|intros j Hj; now apply elem_of_nil in Hj|].
  set (keep := fold_left _ order _) in *.
  apply mask_select_lookup in Hp as (jp & Hkp & Hlp).
  apply mask_select_lookup in Hq as (jq & Hkq & Hlq).
  destruct (Z.le_gt_cases distance (Z.of_nat q - Z.of_nat p)) as [|Hnear];
    [assumption|exfalso].
  assert (jq <> jp) as Hne by (intros ->; rewrite Hlp in Hlq; injection Hlq; lia).
  assert (keep !! jq = Some false) as Hf.
  { apply (Hset jp) with (pk := q) (pj := p); try assumption.
    - simpl. apply Hall. now apply lookup_lt_Some in Hlp.
    - unfold within. lia. }
  congruence.
Qed.

End PriorityLoop.

Lemma argsort_insert_perm (priority : list Q) (j : nat) (sorted : list nat) :
  Permutation (scipy.argsort_insert priority j sorted) (j :: sorted).
Proof.
  induction sorted as [|k rest IH]; simpl; [reflexivity|].
  destruct (Qle_bool _ _); [reflexivity|].
  rewrite IH. apply perm_swap.
Qed.

Lemma argsort_perm (priority : list Q) :
  Permutation (scipy.argsort priority) (seq 0 (length priority)).
Proof.
  unfold scipy.argsort. induction (seq 0 (length priority)) as [|j l IH]; simpl;
    [reflexivity|].
  rewrite argsort_insert_perm. now constructor.
Qed.

Lemma select_by_peak_distance_spaced (peaks : list nat) (priority : list Q) (distance : Z) :
  StronglySorted lt peaks -> length priority = length peaks ->
  forall p q : nat,
    p ∈ mask_select (scipy._select_by_peak_distance peaks priority distance) peaks ->
    q ∈ mask_select (scipy._select_by_peak_distance peaks priority distance) peaks ->
    (p < q)%nat -> (distance <= Z.of_nat q - Z.of_nat p)%Z.
Proof.
  intros Hs Hlen. unfold scipy._select_by_peak_distance.
  apply select_in_order_spaced; [exact Hs|].
  intros j Hj. apply list_elem_of_In, List.in_rev. rewrite List.rev_involutive.
  apply (Permutation_in _ (Permutation_sym (argsort_perm priority))).
  apply List.in_seq. lia.
Qed.

(** ** find_peaks *)

Lemma height_filter_spec (x : list Q) (height : Q) :
  StronglySorted lt
    (List.filter (fun p => Qle_bool height (at_ x p))
                 (scipy.midpoints (scipy._local_maxima_1d x))) /\
  forall m : nat,
    m ∈ List.filter (fun p => Qle_bool height (at_ x p))
                    (scipy.midpoints (scipy._local_maxima_1d x))
    <-> qualifying x height m.
Proof.
  destruct (local_maxima_1d_spec x) as (Hs & Hiff).
  split; [now apply filter_sorted|].
  intros m. rewrite list_elem_of_In, List.filter_In, <- list_elem_of_In, Hiff.
  unfold qualifying. now rewrite Qle_bool_iff.
Qed.

(** Without a distance condition [find_peaks] returns, in increasing
    order, exactly the maxima that reach the height. *)
Lemma find_peaks_height_only (x : list Q) (height : Q) :
  exists peaks : list nat,
    scipy.find_peaks x height None = Ok peaks /\
    StronglySorted lt peaks /\
    forall m : nat, m ∈ peaks <-> qualifying x height m.
Proof.
  eexists. split; [reflexivity|]. simpl.
  rewrite select_by_property_filter. apply height_filter_spec.
Qed.

(** With a minimal distance of at least one sample [find_peaks] returns
    maxima that reach the height, in increasing order, any two of them at
    least [distance] samples apart. *)
Lemma find_peaks_height_distance (x : list Q) (height : Q) (distance : Z) :
  (1 <= distance)%Z ->
  exists peaks : list nat,
    scipy.find_peaks x height (Some distance) = Ok peaks /\
    StronglySorted lt peaks /\
    (forall m : nat, m ∈ peaks -> qualifying x height m) /\
    (forall p q : nat, p ∈ peaks -> q ∈ peaks -> (p < q)%nat ->
                       (distance <= Z.of_nat q - Z.of_nat p)%Z).
Proof.
  intros Hd. unfold scipy.find_peaks.
  destruct (Z.ltb_spec distance 1) as [|_]; [lia|].
  rewrite select_by_property_filter.
  destruct (height_filter_spec x height) as (Hs & Hiff).
  set (tall := List.filter _ _) in *.
  eexists. split; [reflexivity|]. split; [now apply mask_select_sorted|]. split.
  - intros m Hm. apply Hiff.
    apply mask_select_lookup in Hm as (j & _ & Hm).
    apply list_elem_of_lookup. now exists j.
  - apply select_by_peak_distance_spaced; [exact Hs|apply length_map].
Qed.

(** C3: run with [min_height] the mean of the whole filtered sequence and
    [min_distance = 30], the peak detector returns without error a strictly
    increasing list of indices; each returned index is the reported position
    of a maximum of the sequence (so neither neighbour exceeds it) whose
    value is at least [min_height]; two returned indices [i < j] satisfy
    [j - i >= 30]; and when no maximum reaches [min_height] the list is
    empty. *)
Theorem peak_detector (filtered : list Q) :
  exists peaks : list nat,
    pwv_script.systolic_peaks filtered = Ok peaks /\
    scipy.find_peaks filtered (np.mean filtered) (Some 30%Z) = Ok peaks /\
    StronglySorted lt peaks /\
    (forall p : nat, p ∈ peaks ->
        peak_at filtered p /\ local_maximum filtered p /\
        (np.mean filtered <= at_ filtered p)%Q) /\
    (forall i j : nat, i ∈ peaks -> j ∈ peaks -> (i < j)%nat -> (j - i >= 30)%nat) /\
    ((forall m : nat, ~ qualifying filtered (np.mean filtered) m) -> peaks = []).
Proof.
  destruct (find_peaks_height_distance filtered (np.mean filtered) 30 ltac:(lia))
    as (peaks & Hr & Hs & Hq & Hd).
  exists peaks. split; [exact Hr|]. split; [exact Hr|]. split; [exact Hs|].
  split; [|split].
  - intros p Hp. destruct (Hq p Hp) as (Hpk & Hh).
    split; [exact Hpk|]. split; [now apply peak_is_local_maximum|exact Hh].
  - intros i j Hi Hj Hij. pose proof (Hd i j Hi Hj Hij). lia.
  - intros Hnone. destruct peaks as [|p peaks]; [reflexivity|].
    exfalso. apply (Hnone p), Hq. apply elem_of_cons. now left.
Qed.

(** ** Foot detector *)

Lemma slice_length {A : Type} (x : list A) (start stop : nat) :
  (stop <= length x)%nat -> length (np.slice x start stop) = (stop - start)%nat.
Proof.
  intros H. unfold np.slice. rewrite length_take, length_drop. lia.
Qed.

Lemma at_slice (x : list Q) (start stop m : nat) :
  (m < stop - start)%nat -> at_ (np.slice x start stop) m = at_ x (start + m).
Proof.
  intros H. unfold at_, np.slice.
  rewrite !nth_lookup, lookup_take_lt, lookup_drop by assumption. reflexivity.
Qed.

(** A maximum of a window that lies inside the series is a maximum of the
    series, at the shifted position. *)
Lemma peak_at_slice (x : list Q) (start stop m : nat) :
  (stop <= length x)%nat ->
  peak_at (np.slice x start stop) m ->
  (m + 1 < stop - start)%nat /\ peak_at x (start + m).
Proof.
  intros Hstop (l & r & (Hlr & Hr & Hup & Heq & Hdown) & ->).
  rewrite slice_length in Hr by assumption.
  pose proof (midpoint_bounds l r ltac:(lia)) as Hm.
  split; [lia|]. exists (start + l)%nat, (start + r)%nat. split.
  - rewrite !at_slice in Hup, Hdown by lia.
    unfold flat_maximum. split; [lia|]. split; [lia|].
    replace (start + l - 1)%nat with (start + (l - 1))%nat by lia.
    replace (start + r + 1)%nat with (start + (r + 1))%nat by lia.
    split; [exact Hup|]. split; [|exact Hdown].
    intros k Hk. specialize (Heq (k - start)%nat ltac:(lia)).
    rewrite !at_slice in Heq by lia.
    replace (start + (k - start))%nat with k in Heq by lia. exact Heq.
  - replace (start + l + (start + r))%nat with (start * 2 + (l + r))%nat by lia.
    rewrite Nat.div_add_l by lia. reflexivity.
Qed.

Lemma diastolic_peak_spec (filtered : list Q) (p : nat) :
  let n := Z.of_nat (length filtered) in
  let start := (Z.of_nat p + 10)%Z in
  let stop := Z.min (Z.of_nat p + 100) (n - 1) in
  let window := np.slice filtered (Z.to_nat start) (Z.to_nat stop) in
  let threshold := ((3 # 10) * at_ filtered p)%Q in
  exists r : option Z,
    pwv_script.diastolic_peak filtered p = Ok r /\
    (r = None <->
     (start >= stop)%Z \/ forall m : nat, ~ qualifying window threshold m) /\
    (forall f : Z, r = Some f ->
       (start <= f < stop)%Z /\
       (threshold <= at_ filtered (Z.to_nat f))%Q /\
       local_maximum filtered (Z.to_nat f) /\
       exists m : nat,
         f = (start + Z.of_nat m)%Z /\
         qualifying window threshold m /\
         forall m' : nat, qualifying window threshold m' -> (m <= m')%nat).
Proof.
  intros n start stop window threshold. unfold pwv_script.diastolic_peak.
  fold n. fold start. fold stop.
  destruct (Z.geb_spec start stop) as [Hskip|Hlt].
  - exists None. split; [reflexivity|]. split.
    + split; [intros _; left; lia|reflexivity].
    + intros f Hf. discriminate.
  - assert (Hp : (p < length filtered)%nat) by lia.
    destruct (lookup_lt_is_Some_2 filtered p Hp) as [v Hv].
    rewrite (index_of_nat _ _ _ Hv). cbn [bind].
    rewrite <- (at_lookup _ _ _ Hv). fold threshold. fold window.
    destruct (find_peaks_height_only window threshold) as (cands & -> & Hs & Hiff).
    cbn [bind].
    assert (Hstop : (Z.to_nat stop <= length filtered)%nat) by lia.
    destruct cands as [|c cands].
    + exists None. split; [reflexivity|]. split.
      * split; [|reflexivity]. intros _. right. intros m Hm.
        apply Hiff in Hm. now apply elem_of_nil in Hm.
      * intros f Hf. discriminate.
    + exists (Some (start + Z.of_nat c)%Z). split; [reflexivity|].
      assert (Hc : qualifying window threshold c)
        by (apply Hiff, elem_of_cons; now left).
      split.
      * split; [discriminate|]. intros [Hge|Hnone]; [lia|].
        now apply Hnone in Hc.
      * intros f Hf. injection Hf as <-.
        destruct Hc as (Hpk & Hh).
        destruct (peak_at_slice filtered (Z.to_nat start) (Z.to_nat stop) c Hstop Hpk)
          as (Hin & Hpx).
        replace (Z.to_nat (start + Z.of_nat c)) with (Z.to_nat start + c)%nat by lia.
        split; [lia|]. split; [|split].
        -- unfold window in Hh. rewrite at_slice in Hh by lia. exact Hh.
        -- now apply peak_is_local_maximum.
        -- exists c. split; [reflexivity|]. split; [now split|].
           intros m' Hm'. apply Hiff, elem_of_cons in Hm' as [->|Hm']; [lia|].
           inversion Hs as [|? ? _ Hall]; subst.
           rewrite List.Forall_forall in Hall.
           apply list_elem_of_In, Hall in Hm'. lia.
Qed.


(** The loop over the systolic peaks appends, in order, the foot of each
    peak that has one. *)
Lemma diastolic_peaks_loop_spec (filtered : list Q) :
  forall (systolic : list nat) (acc : list Z),
  exists feet : list (option Z),
    Forall2 (fun p r => pwv_script.diastolic_peak filtered p = Ok r) systolic feet /\
    pwv_script.diastolic_peaks_loop filtered systolic acc = Ok (acc ++ omap id feet).
Proof.
  induction systolic as [|p systolic IH]; intros acc; simpl.
  - exists []. split; [constructor|]. now rewrite app_nil_r.
  - destruct (diastolic_peak_spec filtered p) as (r & Hr & _).
    rewrite Hr. cbn [bind].
    destruct (IH (match r with Some f => acc ++ [f] | None => acc end))
      as (feet & Hall & ->).
    exists (r :: feet). split; [now constructor|].
    destruct r; simpl; [rewrite <- app_assoc|]; reflexivity.
Qed.


(** ** Session processing in script.py *)

Lemma peak_at_in_range (x : list Q) (m : nat) :
  peak_at x m -> (m < length x)%nat.
Proof.
  intros (l & r & (Hlr & Hr & _) & ->).
  pose proof (midpoint_bounds l r ltac:(lia)). lia.
Qed.






(** ** The collection loop *)








Lemma collect_line_end (int : string -> option Z) (self : script.PTTCalculator) :
  script.collect_line int self "END_DATA_COLLECTION"
  = bind (script.process_data (script.set_is_collecting false self))
         (fun processed => Ok (fst processed)).
Proof. reflexivity. Qed.





(** ** The reader thread of ppg_live.py *)







(** ** The synthetic recording through both pipelines *)

Example scenario_peaks :
  exists filtered : list Q,
    pwv_script.ppg_filtered (pwv_script.ppg1 scenario.table) = Ok filtered /\
    pwv_script.systolic_peaks filtered = Ok [18; 88]%nat /\
    pwv_script.diastolic_peaks filtered [18; 88]%nat = Ok [43; 113]%Z.
Proof.
  eexists. split; [vm_compute; reflexivity|]. split; vm_compute; reflexivity.
Qed.

Example scenario_offline :
  exists r : pwv_script.analysis,
    pwv_script.process_csv_file scenario.table 20 = Ok r /\
    pwv_script.ptt_systolic r = [30; 30]%Z /\
    pwv_script.ptt_diastolic r = [30; 30]%Z /\
    Forall2 Qeq (pwv_script.pwv_systolic r) [20 / 3; 20 / 3]%Q /\
    Forall2 Qeq (pwv_script.pwv_diastolic r) [20 / 3; 20 / 3]%Q.
Proof.
  eexists. split; [vm_compute; reflexivity|].
  split; [reflexivity|]. split; [reflexivity|].
  split; repeat constructor; reflexivity.
Qed.

Example scenario_live :
  exists self' : script.PTTCalculator,
    script.process_data scenario.session = Ok (self', Some [30; 30]%Z) /\
    script.all_ptt_values self' = [30; 30]%Z /\
    script.collection_count self' = 1%nat.
Proof.
  eexists. split; [vm_compute; reflexivity|]. split; reflexivity.
Qed.

(** Suppression by distance keeps the higher of two close maxima. *)
Example find_peaks_distance_examples :
  scipy.find_peaks [0; 1; 0; 2; 0; 3; 0]%Q 0 None = Ok [1; 3; 5]%nat /\
  scipy.find_peaks [0; 1; 0; 2; 0; 3; 0]%Q 0 (Some 3%Z) = Ok [1; 5]%nat /\
  scipy.find_peaks [0; 1; 0; 2; 0; 3; 0]%Q 2 None = Ok [3; 5]%nat /\
  scipy.find_peaks [0; 1; 1; 1; 0]%Q 0 None = Ok [2]%nat /\
  scipy.find_peaks [0; 1; 1]%Q 0 None = Ok [].
Proof. repeat split. Qed.

(** * Further properties of the code *)

(** ** The session aggregate across collection cycles *)

Lemma ptt_loop_appends (timestamps ppg1_peaks ppg2_peaks : list Z) :
  forall (range : list nat) (acc out : list Z),
    script.ptt_loop timestamps ppg1_peaks ppg2_peaks range acc = Ok out ->
    exists new : list Z, out = acc ++ new /\ Forall (fun v => 0 < v < 300)%Z new.
Proof.
  induction range as [|i range IH]; intros acc out H; simpl in H.
  - injection H as <-. exists []. split; [now rewrite app_nil_r|constructor].
  - repeat (apply bind_ok in H as (? & _ & H)).
    destruct ((0 <? _) && (_ <? 300))%Z eqn:E.
    + apply IH in H as (new & -> & Hnew).
      eexists (_ :: new). split; [now rewrite <- app_assoc|].
      constructor; [|exact Hnew].
      apply andb_true_iff in E as [Ha Hb]. apply Z.ltb_lt in Ha, Hb. lia.
    + now apply IH in H.
Qed.

Lemma beat_ptt_bounded (timestamps ppg1_peaks ppg2_peaks out : list Z) :
  script.beat_ptt timestamps ppg1_peaks ppg2_peaks = Ok out ->
  Forall (fun v => 0 < v < 300)%Z out.
Proof.
  unfold script.beat_ptt. destruct (_ && _)%bool.
  - intros H. apply ptt_loop_appends in H as (new & -> & Hnew). exact Hnew.
  - intros H. injection H as <-. constructor.
Qed.

(** Every way [process_data] can return. *)
Lemma process_data_cases (self self' : script.PTTCalculator) (r : option (list Z)) :
  script.process_data self = Ok (self', r) ->
  (~ session_ready self /\ r = None /\ self' = self) \/
  (session_ready self /\
   script.collection_count self' = S (script.collection_count self) /\
   exists values : list Z,
     r = Some values /\ Forall (fun v => 0 < v < 300)%Z values /\
     ((values = [] /\
       script.ptt_values self' = script.ptt_values self /\
       script.all_ptt_values self' = script.all_ptt_values self) \/
      (values <> [] /\
       script.ptt_values self' = values /\
       script.all_ptt_values self' = script.all_ptt_values self ++ values))).
Proof.
  unfold script.process_data, session_ready. intros H.
  destruct (Nat.ltb_spec (length (script.ppg1_data self)) 50) as [H1|H1];
    [left; injection H as <- <-; split; [lia|now split]|].
  destruct (Nat.ltb_spec (length (script.ppg2_data self)) 50) as [H2|H2];
    [left; injection H as <- <-; split; [lia|now split]|].
  right. cbn [orb] in H.
  apply bind_ok in H as (f1 & _ & H). apply bind_ok in H as (f2 & _ & H).
  apply bind_ok in H as (p1 & _ & H). apply bind_ok in H as (p2 & _ & H).
  apply bind_ok in H as (values & Hv & H). injection H as <- <-.
  split; [now split|]. split; [reflexivity|].
  exists values. split; [reflexivity|].
  split; [now apply beat_ptt_bounded in Hv|].
  destruct values; [left|right]; repeat split; discriminate.
Qed.


Lemma collect_line_not_end (int : string -> option Z) (self self' : script.PTTCalculator)
      (line : string) :
  line <> "END_DATA_COLLECTION"%string ->
  script.collect_line int self line = Ok self' ->
  script.ptt_values self' = script.ptt_values self /\
  script.all_ptt_values self' = script.all_ptt_values self /\
  script.collection_count self' = script.collection_count self.
Proof.
  intros Hne H. unfold script.collect_line in H.
  destruct (String.eqb line "START_DATA_COLLECTION");
    [injection H as <-; repeat split|].
  destruct (String.eqb_spec line "END_DATA_COLLECTION") as [|_]; [contradiction|].
  destruct (script.is_collecting self); [|injection H as <-; repeat split].
  unfold script.try_append in H.
  destruct (length (builtins.split_comma line) =? 3)%nat;
    [|injection H as <-; repeat split].
  destruct (script.unpack_ints int (builtins.split_comma line))
    as [[[t a] b]|[|]]; cbn [bind] in H; try discriminate;
    injection H as <-; repeat split.
Qed.

Lemma collect_line_aggregate (int : string -> option Z) (self self' : script.PTTCalculator)
      (line : string) :
  script.collect_line int self line = Ok self' ->
  (exists new : list Z,
      script.all_ptt_values self' = script.all_ptt_values self ++ new /\
      Forall (fun v => 0 < v < 300)%Z new /\
      (script.ptt_values self' = script.ptt_values self /\ new = [] \/
       script.ptt_values self' = new)) /\
  (script.collection_count self <= script.collection_count self'
   <= S (script.collection_count self))%nat.
Proof.
  intros H.
  destruct (String.eqb_spec line "END_DATA_COLLECTION") as [->|Hne].
  - rewrite collect_line_end in H.
    apply bind_ok in H as ([s1 r] & Hr & E). injection E as <-. cbn [fst].
    apply process_data_cases in Hr
      as [(_ & _ & ->)|(_ & Hc & values & _ & Hb & [(-> & Hp & Ha)|(_ & Hp & Ha)])].
    + split; [|simpl; lia]. exists []. simpl. rewrite app_nil_r.
      split; [reflexivity|]. split; [constructor|now left].
    + rewrite Hc. split; [|simpl; lia]. exists []. rewrite app_nil_r.
      split; [exact Ha|]. split; [constructor|left; now split].
    + rewrite Hc. split; [|simpl; lia]. exists values.
      split; [exact Ha|]. split; [exact Hb|now right].
  - destruct (collect_line_not_end int self self' line Hne H) as (Hp & Ha & Hc).
    rewrite Hc. split; [|lia]. exists []. rewrite app_nil_r.
    split; [exact Ha|]. split; [constructor|now left].
Qed.



(** X2: the accumulated transit-time list is append-only and the
    collection counter never decreases over any run of [collect_data];
    only the end marker can change them (or the last-session list): every
    other line leaves all three as they are. *)
Theorem aggregate_append_only (int : string -> option Z) :
  (forall (lines : list string) (self self' : script.PTTCalculator),
      script.collect_data int self lines = Ok self' ->
      script.all_ptt_values self `prefix_of` script.all_ptt_values self' /\
      (script.collection_count self <= script.collection_count self')%nat) /\
  (forall (self self' : script.PTTCalculator) (line : string),
      line <> "END_DATA_COLLECTION"%string ->
      script.collect_line int self line = Ok self' ->
      script.ptt_values self' = script.ptt_values self /\
      script.all_ptt_values self' = script.all_ptt_values self /\
      script.collection_count self' = script.collection_count self).
Proof.
  split; [|apply collect_line_not_end].
  induction lines as [|line lines IH]; intros self self' H; simpl in H.
  - injection H as <-. split; [reflexivity|lia].
  - apply bind_ok in H as (s1 & H1 & H).
    destruct (collect_line_aggregate int self s1 line H1) as ((new & Ha & _) & Hc).
    destruct (IH s1 self' H) as (Hp & Hc').
    split; [|lia]. etransitivity; [|exact Hp].
    rewrite Ha. now apply prefix_app_r.
Qed.

Lemma aggregate_append_only_witness :
  exists self' : script.PTTCalculator,
    script.collect_line builtins.int scenario.session "1400,500,500" = Ok self' /\
    script.all_ptt_values self' = script.all_ptt_values scenario.session /\
    script.collection_count self' = script.collection_count scenario.session.
Proof.
  exists scenario.session. split; [reflexivity|].
  apply (proj2 (aggregate_append_only builtins.int)
               scenario.session scenario.session "1400,500,500"%string);
    [discriminate|reflexivity].
Defined.

Lemma collect_line_end_cases (int : string -> option Z) (self self' : script.PTTCalculator) :
  script.collect_line int self "END_DATA_COLLECTION" = Ok self' ->
  (session_ready self ->
   script.collection_count self' = S (script.collection_count self)) /\
  (~ session_ready self -> self' = script.set_is_collecting false self).
Proof.
  intros H. rewrite collect_line_end in H.
  apply bind_ok in H as ([s1 r] & Hr & E). injection E as <-. cbn [fst].
  apply process_data_cases in Hr as [(Hn & _ & ->)|(Hy & Hc & _)].
  - split; [intros Hy; contradiction|reflexivity].
  - split; [intros _; exact Hc|intros Hn; contradiction].
Qed.

(** X3: the end marker counts a session exactly when both channel buffers
    hold at least 50 readings; otherwise it only clears the collecting flag
    and neither the counter nor any stored value changes. *)
Theorem end_marker_counts_ready_sessions (int : string -> option Z)
        (self self' : script.PTTCalculator) :
  script.collect_line int self "END_DATA_COLLECTION" = Ok self' ->
  (session_ready self ->
   script.collection_count self' = S (script.collection_count self)) /\
  (~ session_ready self -> self' = script.set_is_collecting false self).
Proof. apply collect_line_end_cases. Qed.

Lemma end_marker_counts_ready_sessions_witness :
  exists self' : script.PTTCalculator,
    script.collect_line builtins.int scenario.session "END_DATA_COLLECTION" = Ok self' /\
    script.collection_count self' = 1%nat.
Proof.
  eexists. split; [vm_compute; reflexivity|].
  refine (proj1 (end_marker_counts_ready_sessions builtins.int scenario.session _ _) _).
  - vm_compute. reflexivity.
  - split; vm_compute; lia.
Defined.



(** ** What the three line readers store *)





Lemma samples_cons (int : string -> option Z) (line : string) (lines : list string) :
  samples int (line :: lines)
  = match parse_sample int line with
    | Some y => y :: samples int lines
    | None => samples int lines
    end.
Proof. reflexivity. Qed.










(** ** Which peaks the distance condition drops *)

Lemma within_sym (distance : Z) (p q : nat) :
  within distance p q -> within distance q p.
Proof. unfold within. lia. Qed.

Lemma mask_select_elem {A : Type} (keep : list bool) (l : list A) (j : nat) (v : A) :
  keep !! j = Some true -> l !! j = Some v -> v ∈ mask_select keep l.
Proof.
  revert l j. induction keep as [|b keep IH]; intros [|a l] [|j] Hk Hl;
    simpl in *; try discriminate.
  - injection Hk as ->. injection Hl as ->. apply elem_of_cons. now left.
  - destruct b; [apply elem_of_cons; right|]; now apply (IH l j).
Qed.

Section Suppression.

Variable peaks : list nat.
Variable distance : Z.
Hypothesis peaks_sorted : StronglySorted lt peaks.

Lemma suppress_earlier_far (pj : nat) :
  forall (k1 : nat) (keep : list bool) (k pk : nat),
    peaks !! k = Some pk ->
    ~ (Z.of_nat pj - Z.of_nat pk < distance)%Z ->
    scipy.suppress_earlier peaks pj distance keep k1 !! k = keep !! k.
Proof.
  induction k1 as [|k0 IH]; intros keep k pk Hpk Hfar; simpl; [reflexivity|].
  destruct (Z.ltb_spec (Z.of_nat pj - Z.of_nat (nth k0 peaks 0%nat)) distance)
    as [Hnear|_]; [|reflexivity].
  rewrite (IH _ k pk Hpk Hfar). apply list_lookup_insert_ne.
  intros ->. rewrite (nth_lookup_Some _ _ 0%nat _ Hpk) in Hnear. contradiction.
Qed.

Lemma suppress_later_far (pj : nat) :
  forall (later : list nat) (k0 : nat) (keep : list bool),
    later = drop k0 peaks ->
    forall k pk : nat,
      peaks !! k = Some pk ->
      ~ (Z.of_nat pk - Z.of_nat pj < distance)%Z ->
      scipy.suppress_later later pj distance keep k0 !! k = keep !! k.
Proof.
  induction later as [|pk0 later IH]; intros k0 keep Hdrop k pk Hpk Hfar; simpl;
    [reflexivity|].
  assert (Hpk0 : peaks !! k0 = Some pk0).
  { rewrite <- (Nat.add_0_r k0), <- lookup_drop, <- Hdrop. reflexivity. }
  assert (Hlater : later = drop (S k0) peaks).
  { rewrite (drop_S _ _ _ Hpk0) in Hdrop. now injection Hdrop. }
  destruct (Z.ltb_spec (Z.of_nat pk0 - Z.of_nat pj) distance) as [Hnear|_];
    [|reflexivity].
  rewrite (IH _ _ Hlater k pk Hpk Hfar). apply list_lookup_insert_ne.
  intros ->. rewrite Hpk0 in Hpk. injection Hpk as ->. contradiction.
Qed.

(** Visiting position [j] changes no flag but those of peaks within the
    minimal distance of the peak at [j]; the flag of [j] itself stays. *)
Lemma suppress_around_far (keep : list bool) (j k : nat) :
  length keep = length peaks ->
  k = j \/
  (exists pk pj : nat,
      peaks !! k = Some pk /\ peaks !! j = Some pj /\ ~ within distance pk pj) ->
  scipy.suppress_around peaks distance keep j !! k = keep !! k.
Proof using peaks_sorted.
  intros Hlen Hk. unfold scipy.suppress_around.
  destruct (keep !! j) as [[|]|] eqn:Hj; try reflexivity.
  pose proof (lookup_lt_Some _ _ _ Hj) as Hjn.
  destruct (lookup_lt_is_Some_2 peaks j ltac:(lia)) as [pj Hpj].
  rewrite (nth_lookup_Some _ _ 0%nat _ Hpj).
  destruct (suppress_earlier_spec peaks distance peaks_sorted pj j keep ltac:(lia))
    as (_ & _ & Hsame1 & _).
  destruct (suppress_later_spec peaks distance peaks_sorted pj
              (drop (S j) peaks) (S j)
              (scipy.suppress_earlier peaks pj distance keep j) eq_refl)
    as (_ & _ & Hsame2 & _).
  destruct Hk as [->|(pk & pj' & Hpk & Hpj' & Hfar)].
  - rewrite Hsame2 by lia. apply Hsame1. lia.
  - rewrite Hpj in Hpj'. injection Hpj' as <-. unfold within in Hfar.
    destruct (Nat.lt_trichotomy k j) as [Hlt|[->|Hgt]].
    + rewrite Hsame2 by lia.
      pose proof (sorted_lookup_lt peaks peaks_sorted k j pk pj Hlt Hpk Hpj).
      apply (suppress_earlier_far pj j keep k pk Hpk). lia.
    + rewrite Hsame2 by lia. apply Hsame1. lia.
    + pose proof (sorted_lookup_lt peaks peaks_sorted j k pj pk Hgt Hpj Hpk).
      rewrite (suppress_later_far pj _ _ _ eq_refl k pk Hpk) by lia.
      apply Hsame1. lia.
Qed.

Lemma dominated_step (keep : list bool) (done : list nat) (j0 : nat) :
  length keep = length peaks ->
  (forall j : nat, j ∈ done -> settled peaks distance keep j) ->
  (forall k : nat, keep !! k = Some false -> dominated peaks distance keep done k) ->
  forall k : nat,
    scipy.suppress_around peaks distance keep j0 !! k = Some false ->
    dominated peaks distance (scipy.suppress_around peaks distance keep j0)
              (done ++ [j0]) k.
Proof using peaks_sorted.
  intros Hlen Hset Hdom k Hk.
  destruct (suppress_around_spec peaks distance peaks_sorted keep j0 Hlen)
    as (Hlen' & Hmono & _).
  set (keep' := scipy.suppress_around peaks distance keep j0) in *.
  pose proof (lookup_lt_Some _ _ _ Hk) as Hkn.
  destruct (lookup_lt_is_Some_2 peaks k ltac:(lia)) as [pk Hpk].
  destruct (lookup_lt_is_Some_2 keep k ltac:(lia)) as [[|] Hb].
  - (* the flag of [k] is cleared by this visit *)
    assert (Hj0 : keep !! j0 = Some true).
    { destruct (keep !! j0) as [[|]|] eqn:E; [reflexivity| |];
        exfalso; unfold keep', scipy.suppress_around in Hk; rewrite E in Hk; congruence. }
    pose proof (lookup_lt_Some _ _ _ Hj0) as Hj0n.
    destruct (lookup_lt_is_Some_2 peaks j0 ltac:(lia)) as [pj0 Hpj0].
    assert (Hne : k <> j0).
    { intros ->. unfold keep' in Hk.
      rewrite (suppress_around_far keep j0 j0 Hlen (or_introl eq_refl)) in Hk.
      congruence. }
    assert (Hnear : within distance pk pj0).
    { destruct (Z.lt_ge_cases (Z.abs (Z.of_nat pk - Z.of_nat pj0)) distance)
        as [H|H]; [exact H|exfalso].
      unfold keep' in Hk.
      rewrite (suppress_around_far keep j0 k Hlen) in Hk; [congruence|].
      right. exists pk, pj0. split; [exact Hpk|]. split; [exact Hpj0|].
      unfold within. lia. }
    exists done, j0, []. split; [reflexivity|]. split; [|split; [exact Hne|split]].
    + intros Hin.
      pose proof (Hset k Hin Hb j0 pj0 pk (not_eq_sym Hne) Hpj0 Hpk
                       (within_sym _ _ _ Hnear)). congruence.
    + unfold keep'.
      now rewrite (suppress_around_far keep j0 j0 Hlen (or_introl eq_refl)).
    + exists pk, pj0. now repeat split.
  - (* the flag of [k] was cleared before *)
    destruct (Hdom k Hb) as (l1 & j & l2 & -> & Hnot & Hne & Hj & pk' & pj & Hpk' & Hpj & Hnear).
    exists l1, j, (l2 ++ [j0]).
    split; [now rewrite <- app_assoc|]. split; [exact Hnot|]. split; [exact Hne|].
    split; [|exists pk', pj; now repeat split].
    destruct (Nat.eq_dec j j0) as [->|Hjj0].
    + unfold keep'.
      now rewrite (suppress_around_far keep j0 j0 Hlen (or_introl eq_refl)).
    + destruct (keep !! j0) as [[|]|] eqn:Hj0;
        try (unfold keep', scipy.suppress_around; now rewrite Hj0).
      pose proof (lookup_lt_Some _ _ _ Hj0) as Hj0n.
      destruct (lookup_lt_is_Some_2 peaks j0 ltac:(lia)) as [pj0 Hpj0].
      unfold keep'. rewrite (suppress_around_far keep j0 j Hlen); [exact Hj|].
      right. exists pj, pj0. split; [exact Hpj|]. split; [exact Hpj0|].
      intros Hw.
      assert (Hin : j ∈ l1 ++ j :: l2)
        by (apply elem_of_app; right; apply elem_of_cons; now left).
      pose proof (Hset j Hin Hj j0 pj0 pj (not_eq_sym Hjj0) Hpj0 Hpj
                       (within_sym _ _ _ Hw)). congruence.
Qed.

Lemma priority_loop_dominated :
  forall (order done : list nat) (keep : list bool),
    length keep = length peaks ->
    (forall j : nat, j ∈ done -> settled peaks distance keep j) ->
    (forall k : nat, keep !! k = Some false -> dominated peaks distance keep done k) ->
    forall k : nat,
      fold_left (scipy.suppress_around peaks distance) order keep !! k = Some false ->
      dominated peaks distance
                (fold_left (scipy.suppress_around peaks distance) order keep)
                (done ++ order) k.
Proof using peaks_sorted.
  induction order as [|j0 order IH]; intros done keep Hlen Hset Hdom k Hk; simpl in *.
  - rewrite app_nil_r. now apply Hdom.
  - destruct (suppress_around_spec peaks distance peaks_sorted keep j0 Hlen)
      as (Hlen' & Hmono & Hset0).
    replace (done ++ j0 :: order) with ((done ++ [j0]) ++ order)
      by now rewrite <- app_assoc.
    apply IH; [lia| | |exact Hk].
    + intros j Hj. apply elem_of_app in Hj as [Hj|Hj].
      * intros Hkj k' pk pj Hne Hpk Hpj Hnear.
        apply (kept_false_stays keep); [exact Hlen'|exact Hmono|].
        apply (Hset j Hj (Hmono _ Hkj) k' pk pj); assumption.
      * apply list_elem_of_singleton in Hj as ->. exact Hset0.
    + now apply dominated_step.
Qed.

End Suppression.

Lemma argsort_insert_sorted (priority : list Q) (j : nat) (sorted : list nat) :
  StronglySorted (fun a b => (at_ priority a <= at_ priority b)%Q) sorted ->
  StronglySorted (fun a b => (at_ priority a <= at_ priority b)%Q)
                 (scipy.argsort_insert priority j sorted).
Proof.
  induction 1 as [|k rest Hs IH Hall]; simpl.
  - repeat constructor.
  - destruct (Qle_bool (at_ priority j) (at_ priority k)) eqn:E.
    + apply Qle_bool_iff in E. constructor; [now constructor|].
      constructor; [exact E|].
      rewrite List.Forall_forall in *. intros r Hr. specialize (Hall r Hr).
      simpl in *. lra.
    + assert (Hlt : (at_ priority k < at_ priority j)%Q).
      { apply Qnot_le_lt. intros Hle. apply Qle_bool_iff in Hle. congruence. }
      constructor; [exact IH|].
      rewrite List.Forall_forall in *. intros r Hr.
      apply (Permutation_in _ (argsort_insert_perm priority j rest)) in Hr.
      destruct Hr as [<-|Hr]; [simpl; lra|now apply Hall].
Qed.

Lemma argsort_sorted (priority : list Q) :
  StronglySorted (fun a b => (at_ priority a <= at_ priority b)%Q)
                 (scipy.argsort priority).
Proof.
  unfold scipy.argsort. induction (seq 0 (length priority)) as [|j l IH]; simpl.
  - constructor.
  - now apply argsort_insert_sorted.
Qed.

Lemma sorted_before {A : Type} (R : A -> A -> Prop) (a b : list A) (j x : A) :
  StronglySorted R (a ++ j :: b) -> In x a -> R x j.
Proof.
  induction a as [|y a IH]; intros Hs Hin; [destruct Hin|].
  simpl in Hs. inversion Hs as [|? ? Hs' Hall]; subst.
  destruct Hin as [->|Hin]; [|now apply IH].
  rewrite List.Forall_forall in Hall. apply Hall.
  apply List.in_or_app. right. now left.
Qed.

Lemma repeat_true_no_false (n k : nat) : repeat true n !! k <> Some false.
Proof.
  revert k. induction n as [|n IH]; intros [|k]; simpl; try discriminate. apply IH.
Qed.

(** A peak dropped by [_select_by_peak_distance] lies within the minimal
    distance of a kept peak whose priority is at least as high. *)
Lemma select_by_peak_distance_dominated (peaks : list nat) (priority : list Q)
      (distance : Z) (k pk : nat) :
  StronglySorted lt peaks -> length priority = length peaks ->
  peaks !! k = Some pk ->
  pk ∉ mask_select (scipy._select_by_peak_distance peaks priority distance) peaks ->
  exists j pj : nat,
    peaks !! j = Some pj /\
    pj ∈ mask_select (scipy._select_by_peak_distance peaks priority distance) peaks /\
    within distance pk pj /\
    (at_ priority k <= at_ priority j)%Q.
Proof.
  intros Hs Hlen Hpk Hnot. unfold scipy._select_by_peak_distance in *.
  unfold scipy.select_in_order in *.
  set (order := rev (scipy.argsort priority)) in *.
  destruct (priority_loop_invariant peaks distance Hs order []
              (repeat true (length peaks)))
    as (Hl & _); [apply repeat_length|intros j Hj; now apply elem_of_nil in Hj|].
  pose proof (priority_loop_dominated peaks distance Hs order []
                (repeat true (length peaks)) (repeat_length _ _)) as Hdom.
  set (keep := fold_left _ order _) in *.
  pose proof (lookup_lt_Some _ _ _ Hpk) as Hkn.
  assert (Hk : keep !! k = Some false).
  { destruct (lookup_lt_is_Some_2 keep k ltac:(lia)) as [[|] Hb]; [|exact Hb].
    exfalso. apply Hnot. now apply (mask_select_elem keep peaks k). }
  destruct (Hdom ltac:(intros j Hj; now apply elem_of_nil in Hj)
                 ltac:(intros k' Hk'; now apply repeat_true_no_false in Hk') k Hk)
    as (l1 & j & l2 & Hord & Hnl1 & Hne & Hj & pk' & pj & Hpk' & Hpj & Hnear).
  rewrite Hpk in Hpk'. injection Hpk' as <-.
  exists j, pj. split; [exact Hpj|]. split; [now apply (mask_select_elem keep peaks j)|].
  split; [exact Hnear|].
  (* [k] comes after [j] in the visiting order, hence before it in argsort *)
  assert (Hin : In k (scipy.argsort priority)).
  { apply (Permutation_in _ (Permutation_sym (argsort_perm priority))).
    apply List.in_seq. lia. }
  assert (Hk2 : In k l2).
  { apply List.in_rev in Hin. fold order in Hin. simpl in Hord. rewrite Hord in Hin.
    apply List.in_app_or in Hin as [Hin|[Hin|Hin]].
    - exfalso. apply Hnl1. now apply list_elem_of_In.
    - congruence.
    - exact Hin. }
  assert (Hsorted : scipy.argsort priority = rev l2 ++ j :: rev l1).
  { rewrite <- (List.rev_involutive (scipy.argsort priority)). fold order.
    simpl in Hord. rewrite Hord, List.rev_app_distr. simpl.
    now rewrite <- app_assoc. }
  pose proof (argsort_sorted priority) as Hso. rewrite Hsorted in Hso.
  apply (sorted_before _ _ _ _ _ Hso). now apply List.in_rev in Hk2.
Qed.

Lemma at_map_lookup (x : list Q) (peaks : list nat) (k p : nat) :
  peaks !! k = Some p -> at_ (map (at_ x) peaks) k = at_ x p.
Proof.
  intros H. apply at_lookup.
  change (map (at_ x) peaks) with (at_ x <$> peaks).
  now rewrite list_lookup_fmap, H.
Qed.

(** X8: the minimal-distance rule of the peak detector only drops a
    maximum in favour of a taller or equal one nearby: every maximum of the
    filtered sequence that reaches the mean is either returned or lies less
    than 30 samples from a returned peak whose value is at least as high.
    In particular the result is non-empty whenever some maximum reaches the
    mean. *)
Theorem dropped_peaks_have_a_taller_neighbour (filtered : list Q) :
  exists peaks : list nat,
    pwv_script.systolic_peaks filtered = Ok peaks /\
    (forall m : nat,
        qualifying filtered (np.mean filtered) m ->
        exists p : nat,
          p ∈ peaks /\ within 30 m p /\ (at_ filtered m <= at_ filtered p)%Q) /\
    ((exists m : nat, qualifying filtered (np.mean filtered) m) -> peaks <> []).
Proof.
  unfold pwv_script.systolic_peaks, scipy.find_peaks. cbn [Z.ltb Z.compare].
  rewrite select_by_property_filter.
  destruct (height_filter_spec filtered (np.mean filtered)) as (Hs & Hiff).
  set (tall := List.filter _ _) in *.
  eexists. split; [reflexivity|].
  assert (Hdom : forall m : nat,
             qualifying filtered (np.mean filtered) m ->
             exists p : nat,
               p ∈ mask_select
                     (scipy._select_by_peak_distance tall (map (at_ filtered) tall) 30)
                     tall /\
               within 30 m p /\ (at_ filtered m <= at_ filtered p)%Q).
  { intros m Hm. apply Hiff, list_elem_of_lookup in Hm as (k & Hk).
    destruct (decide (m ∈ mask_select
                          (scipy._select_by_peak_distance tall (map (at_ filtered) tall) 30)
                          tall)) as [Hin|Hout].
    - exists m. split; [exact Hin|]. split; [unfold within; lia|lra].
    - destruct (select_by_peak_distance_dominated tall (map (at_ filtered) tall) 30
                  k m Hs (length_map _ _) Hk Hout)
        as (j & pj & Hpj & Hin & Hnear & Hprio).
      exists pj. split; [exact Hin|]. split; [exact Hnear|].
      now rewrite (at_map_lookup _ _ _ _ Hk), (at_map_lookup _ _ _ _ Hpj) in Hprio. }
  split; [exact Hdom|].
  intros (m & Hm) E. destruct (Hdom m Hm) as (p & Hp & _).
  rewrite E in Hp. now apply elem_of_nil in Hp.
Qed.

(** ** When the offline analysis returns *)

Lemma ppg_filtered_values_long (raw : list Z) :
  (5 <= length raw)%nat ->
  exists filtered : list Q,
    pwv_script.ppg_filtered raw = Ok filtered /\
    length filtered = (length raw - 4)%nat /\
    forall i : nat, (i < length raw - 4)%nat ->
      (at_ filtered i == window_mean raw i)%Q.
Proof.
  intros Hn. eexists. split; [now apply ppg_filtered_long|].
  split; [rewrite correlate_valid_length, length_map, repeat_length; lia|].
  intros i Hi.
  assert (Hk : (i < length (map inject_Z raw) - length (repeat (1 / 5)%Q 5) + 1)%nat)
    by (rewrite length_map, repeat_length; lia).
  rewrite (at_lookup _ i _ (correlate_valid_lookup _ _ i Hk)).
  rewrite repeat_length. unfold window_mean.
  rewrite dot_repeat by (rewrite length_take, length_drop, length_map; lia).
  rewrite List.skipn_map, List.firstn_map.
  generalize (np.sum (map inject_Z (take 5 (drop i raw)))). intros s. field.
Qed.

Lemma ppg_filtered_values_short (raw : list Z) :
  (1 <= length raw < 5)%nat ->
  exists filtered : list Q,
    pwv_script.ppg_filtered raw = Ok filtered /\
    length filtered = (6 - length raw)%nat /\
    forall i : nat, (i < 6 - length raw)%nat ->
      (at_ filtered i == np.sum (map inject_Z raw) / 5)%Q.
Proof.
  intros Hn. eexists. split; [now apply ppg_filtered_short|].
  split; [rewrite correlate_valid_length, length_rev, length_map, repeat_length; lia|].
  intros i Hi.
  assert (Hk : (i < length (repeat (1 / 5)%Q 5)
                    - length (rev (map inject_Z raw)) + 1)%nat)
    by (rewrite length_rev, length_map, repeat_length; lia).
  rewrite (at_lookup _ i _ (correlate_valid_lookup _ _ i Hk)).
  rewrite length_rev, length_map.
  rewrite take_drop_repeat by lia.
  rewrite dot_repeat_l by (now rewrite length_rev, length_map).
  rewrite sum_rev. field.
Qed.

Lemma gradient_ok (f : list Q) :
  (2 <= length f)%nat -> exists g : list Q, np.gradient f = Ok g.
Proof.
  intros H. unfold np.gradient.
  destruct (Nat.ltb_spec (length f) 2); [lia|]. eauto.
Qed.

Lemma gradient_raises (f : list Q) :
  (length f < 2)%nat -> np.gradient f = Raise ValueError.
Proof.
  intros H. unfold np.gradient.
  destruct (Nat.ltb_spec (length f) 2); [reflexivity|lia].
Qed.

Lemma systolic_peaks_ok (filtered : list Q) :
  exists peaks : list nat,
    pwv_script.systolic_peaks filtered = Ok peaks /\
    Forall (fun p => peak_at filtered p) peaks.
Proof.
  destruct (find_peaks_height_distance filtered (np.mean filtered) 30 ltac:(lia))
    as (peaks & Hr & _ & Hq & _).
  exists peaks. split; [exact Hr|].
  apply List.Forall_forall. intros p Hp. apply list_elem_of_In in Hp.
  now destruct (Hq p Hp).
Qed.

(** Where a foot can lie relative to its peak. *)
Lemma diastolic_peak_bounds (filtered : list Q) (p : nat) (f : Z) :
  pwv_script.diastolic_peak filtered p = Ok (Some f) ->
  (Z.of_nat p + 11 <= f <= Z.of_nat p + 98)%Z /\
  (f <= Z.of_nat (length filtered) - 3)%Z /\
  ((3 # 10) * at_ filtered p <= at_ filtered (Z.to_nat f))%Q.
Proof.
  intros H.
  destruct (diastolic_peak_spec filtered p) as (r & Hr & _ & Hsome).
  rewrite H in Hr. injection Hr as <-.
  destruct (Hsome f eq_refl) as (Hrange & Hh & _ & m & -> & (Hpk & _) & _).
  assert (Hstop : (Z.to_nat (Z.min (Z.of_nat p + 100) (Z.of_nat (length filtered) - 1))
                   <= length filtered)%nat) by lia.
  destruct (peak_at_slice filtered _ _ m Hstop Hpk) as (Hm & _).
  destruct Hpk as (l & r & ((Hl & Hlr) & _) & ->).
  pose proof (midpoint_bounds l r ltac:(lia)).
  split; [lia|]. split; [lia|exact Hh].
Qed.

Lemma diastolic_peaks_ok (filtered : list Q) (systolic : list nat) :
  exists feet : list Z,
    pwv_script.diastolic_peaks filtered systolic = Ok feet /\
    (length feet <= length systolic)%nat /\
    forall f : Z, f ∈ feet ->
      exists p : nat,
        p ∈ systolic /\
        (Z.of_nat p + 11 <= f <= Z.of_nat p + 98)%Z /\
        (f <= Z.of_nat (length filtered) - 3)%Z /\
        ((3 # 10) * at_ filtered p <= at_ filtered (Z.to_nat f))%Q.
Proof.
  destruct (diastolic_peaks_loop_spec filtered systolic []) as (feet & Hall & Hr).
  exists (omap id feet). split; [exact Hr|]. clear Hr.
  induction Hall as [|p r systolic feet Hp Hall IH].
  - split; [simpl; lia|]. intros f Hf. now apply elem_of_nil in Hf.
  - destruct IH as (Hlen & Hin). destruct r as [f0|].
    + change (omap id (Some f0 :: feet)) with (f0 :: omap id feet).
      split; [cbn [length]; lia|]. intros f Hf. apply elem_of_cons in Hf as [->|Hf].
      * exists p. split; [apply elem_of_cons; now left|].
        now apply diastolic_peak_bounds.
      * destruct (Hin f Hf) as (q & Hq & Hb).
        exists q. split; [apply elem_of_cons; now right|exact Hb].
    + change (omap id (None :: feet)) with (omap id feet).
      split; [cbn [length]; lia|]. intros f Hf.
      destruct (Hin f Hf) as (q & Hq & Hb).
      exists q. split; [apply elem_of_cons; now right|exact Hb].
Qed.

(** X9: the diastolic search emits at most one foot per systolic peak and
    never raises; every emitted foot [f] belongs to a systolic peak [p] of
    the list with [p + 11 <= f <= p + 98], is at most the third-last index
    of the series, and reaches 0.3 times the value at [p]. *)
Theorem feet_follow_their_peaks (filtered : list Q) (systolic : list nat) :
  exists feet : list Z,
    pwv_script.diastolic_peaks filtered systolic = Ok feet /\
    (length feet <= length systolic)%nat /\
    forall f : Z, f ∈ feet ->
      exists p : nat,
        p ∈ systolic /\
        (Z.of_nat p + 11 <= f <= Z.of_nat p + 98)%Z /\
        (f <= Z.of_nat (length filtered) - 3)%Z /\
        ((3 # 10) * at_ filtered p <= at_ filtered (Z.to_nat f))%Q.
Proof. apply diastolic_peaks_ok. Qed.

Lemma pwv_nil (distance_cm : Q) : pwv_script.pwv distance_cm [] = [].
Proof. unfold pwv_script.pwv. now destruct (Qlt_bool 0 distance_cm). Qed.

(** A sequence whose samples are all equal has no peak. *)
Lemma flat_sequence_has_no_peaks (x : list Q) :
  (forall i j : nat, (i < length x)%nat -> (j < length x)%nat ->
                     (at_ x i == at_ x j)%Q) ->
  pwv_script.systolic_peaks x = Ok [].
Proof.
  intros Hflat.
  destruct (systolic_peaks_ok x) as (peaks & Hr & Hall).
  rewrite Hr. f_equal. destruct peaks as [|p peaks]; [reflexivity|exfalso].
  inversion Hall as [|? ? (l & r & (Hlr & Hr' & Hup & _) & _) _]; subst.
  specialize (Hflat (l - 1)%nat l ltac:(lia) ltac:(lia)). lra.
Qed.

Lemma peaks_are_feature_indices (filtered : list Q) (timestamps : list Z) (peaks : list nat) :
  Forall (fun p => peak_at filtered p) peaks ->
  length timestamps = length filtered ->
  Forall (feature_index timestamps) (map Z.of_nat peaks).
Proof.
  intros Hall Hlen. apply List.Forall_forall. intros k Hk.
  apply List.in_map_iff in Hk as (m & <- & Hm).
  rewrite List.Forall_forall in Hall. apply Hall, peak_at_in_range in Hm.
  unfold feature_index. lia.
Qed.

Lemma feet_are_feature_indices (filtered : list Q) (timestamps : list Z)
      (systolic : list nat) (feet : list Z) :
  pwv_script.diastolic_peaks filtered systolic = Ok feet ->
  length timestamps = length filtered ->
  Forall (feature_index timestamps) feet.
Proof.
  intros Hr Hlen.
  destruct (diastolic_peaks_ok filtered systolic) as (feet' & Hr' & _ & Hb).
  rewrite Hr in Hr'. injection Hr' as <-.
  apply List.Forall_forall. intros f Hf.
  apply list_elem_of_In, Hb in Hf as (p & _ & H1 & H2 & _).
  unfold feature_index. lia.
Qed.

Lemma timestamps_filtered_length (timestamps : list Z) :
  length (pwv_script.timestamps_filtered timestamps) = (length timestamps - 4)%nat.
Proof.
  unfold pwv_script.timestamps_filtered, np.slice_from, pwv_script.window_size.
  now rewrite length_drop.
Qed.

(** The analysis of a table with at least six rows, stage by stage. *)
Lemma process_csv_file_long (data : list pwv_script.sample) (distance_cm : Q) :
  (6 <= length data)%nat ->
  exists (f1 f2 : list Q) (p1 p2 : list nat) (d1 d2 : list Z),
    pwv_script.ppg_filtered (pwv_script.ppg1 data) = Ok f1 /\
    pwv_script.ppg_filtered (pwv_script.ppg2 data) = Ok f2 /\
    pwv_script.systolic_peaks f1 = Ok p1 /\
    pwv_script.systolic_peaks f2 = Ok p2 /\
    pwv_script.diastolic_peaks f1 p1 = Ok d1 /\
    pwv_script.diastolic_peaks f2 p2 = Ok d2 /\
    pwv_script.process_csv_file data distance_cm
    = Ok {| pwv_script.ptt_systolic :=
              transit_times_spec
                (pwv_script.timestamps_filtered (pwv_script.timestamp_ms data))
                (map Z.of_nat p1) (map Z.of_nat p2);
            pwv_script.ptt_diastolic :=
              transit_times_spec
                (pwv_script.timestamps_filtered (pwv_script.timestamp_ms data)) d1 d2;
            pwv_script.pwv_systolic :=
              pwv_script.pwv distance_cm
                (transit_times_spec
                   (pwv_script.timestamps_filtered (pwv_script.timestamp_ms data))
                   (map Z.of_nat p1) (map Z.of_nat p2));
            pwv_script.pwv_diastolic :=
              pwv_script.pwv distance_cm
                (transit_times_spec
                   (pwv_script.timestamps_filtered (pwv_script.timestamp_ms data))
                   d1 d2) |}.
Proof.
  intros Hn.
  assert (H1 : length (pwv_script.ppg1 data) = length data) by apply length_map.
  assert (H2 : length (pwv_script.ppg2 data) = length data) by apply length_map.
  assert (Ht : length (pwv_script.timestamp_ms data) = length data) by apply length_map.
  destruct (ppg_filtered_values_long (pwv_script.ppg1 data) ltac:(lia)) as (f1 & Hf1 & Hl1 & _).
  destruct (ppg_filtered_values_long (pwv_script.ppg2 data) ltac:(lia)) as (f2 & Hf2 & Hl2 & _).
  destruct (gradient_ok f1 ltac:(lia)) as (g1 & Hg1).
  destruct (gradient_ok f2 ltac:(lia)) as (g2 & Hg2).
  destruct (systolic_peaks_ok f1) as (p1 & Hp1 & Hq1).
  destruct (systolic_peaks_ok f2) as (p2 & Hp2 & Hq2).
  destruct (diastolic_peaks_ok f1 p1) as (d1 & Hd1 & _).
  destruct (diastolic_peaks_ok f2 p2) as (d2 & Hd2 & _).
  exists f1, f2, p1, p2, d1, d2.
  repeat (split; [assumption|]).
  unfold pwv_script.process_csv_file.
  rewrite Hf1, Hf2. cbn [bind]. rewrite Hg1, Hg2. cbn [bind].
  rewrite Hp1, Hp2. cbn [bind]. rewrite Hd1, Hd2. cbn [bind].
  set (ts := pwv_script.timestamps_filtered (pwv_script.timestamp_ms data)).
  assert (Hts1 : length ts = length f1)
    by (unfold ts; rewrite timestamps_filtered_length; lia).
  assert (Hts2 : length ts = length f2)
    by (unfold ts; rewrite timestamps_filtered_length; lia).
  rewrite (calculate_ptt_spec ts _ _
             (peaks_are_feature_indices f1 ts p1 Hq1 Hts1)
             (peaks_are_feature_indices f2 ts p2 Hq2 Hts2)).
  cbn [bind].
  rewrite (calculate_ptt_spec ts _ _
             (feet_are_feature_indices f1 ts p1 d1 Hd1 Hts1)
             (feet_are_feature_indices f2 ts p2 d2 Hd2 Hts2)).
  reflexivity.
Qed.

Lemma short_filtered_is_flat (raw : list Z) :
  (1 <= length raw < 5)%nat ->
  exists filtered : list Q,
    pwv_script.ppg_filtered raw = Ok filtered /\
    (2 <= length filtered)%nat /\
    pwv_script.systolic_peaks filtered = Ok [].
Proof.
  intros Hn.
  destruct (ppg_filtered_values_short raw Hn) as (f & Hf & Hl & Hv).
  exists f. split; [exact Hf|]. split; [lia|].
  apply flat_sequence_has_no_peaks. intros i j Hi Hj.
  rewrite (Hv i), (Hv j) by lia. reflexivity.
Qed.

Lemma process_csv_file_five (data : list pwv_script.sample) (distance_cm : Q) :
  length data = 0%nat \/ length data = 5%nat ->
  pwv_script.process_csv_file data distance_cm = Raise ValueError.
Proof.
  assert (H1 : length (pwv_script.ppg1 data) = length data) by apply length_map.
  assert (H2 : length (pwv_script.ppg2 data) = length data) by apply length_map.
  intros [H0|H5].
  - destruct data; [reflexivity|discriminate].
  - destruct (ppg_filtered_values_long (pwv_script.ppg1 data) ltac:(lia))
      as (f1 & Hf1 & Hl1 & _).
    destruct (ppg_filtered_values_long (pwv_script.ppg2 data) ltac:(lia))
      as (f2 & Hf2 & Hl2 & _).
    unfold pwv_script.process_csv_file. rewrite Hf1, Hf2. cbn [bind].
    now rewrite (gradient_raises f1) by lia.
Qed.

Lemma process_csv_file_short (data : list pwv_script.sample) (distance_cm : Q) :
  (1 <= length data <= 4)%nat ->
  pwv_script.process_csv_file data distance_cm = Ok empty_analysis.
Proof.
  assert (H1 : length (pwv_script.ppg1 data) = length data) by apply length_map.
  assert (H2 : length (pwv_script.ppg2 data) = length data) by apply length_map.
  intros Hn.
  destruct (short_filtered_is_flat (pwv_script.ppg1 data) ltac:(lia))
    as (f1 & Hf1 & Hl1 & Hp1).
  destruct (short_filtered_is_flat (pwv_script.ppg2 data) ltac:(lia))
    as (f2 & Hf2 & Hl2 & Hp2).
  destruct (gradient_ok f1 Hl1) as (g1 & Hg1).
  destruct (gradient_ok f2 Hl2) as (g2 & Hg2).
  unfold pwv_script.process_csv_file. rewrite Hf1, Hf2. cbn [bind].
  rewrite Hg1, Hg2. cbn [bind]. rewrite Hp1, Hp2. cbn [bind].
  cbn [pwv_script.diastolic_peaks pwv_script.diastolic_peaks_loop bind map].
  unfold pwv_script.calculate_ptt. cbn [length Nat.min seq pwv_script.calculate_ptt_loop bind].
  unfold empty_analysis. now rewrite pwv_nil.
Qed.









(** ** What smoothing can and cannot produce *)

Lemma sum_bounds (lo hi : Z) (l : list Z) :
  Forall (fun z => lo <= z <= hi)%Z l ->
  (inject_Z lo * inject_Z (Z.of_nat (length l)) <= np.sum (map inject_Z l)
   <= inject_Z hi * inject_Z (Z.of_nat (length l)))%Q.
Proof.
  induction 1 as [|z l Hz Hl IH].
  - cbn [map length]. change (np.sum []) with 0%Q.
    change (inject_Z (Z.of_nat 0)) with 0%Q. split; lra.
  - cbn [map np.sum fold_right length]. fold (np.sum (map inject_Z l)).
    rewrite Nat2Z.inj_succ, <- Z.add_1_r, inject_Z_plus.
    assert (Hlo : (inject_Z lo <= inject_Z z)%Q) by (rewrite <- Zle_Qle; lia).
    assert (Hhi : (inject_Z z <= inject_Z hi)%Q) by (rewrite <- Zle_Qle; lia).
    change (inject_Z 1) with 1%Q. split; lra.
Qed.

Lemma window_mean_bounds (lo hi : Z) (raw : list Z) (i : nat) :
  Forall (fun z => lo <= z <= hi)%Z raw ->
  (i + 5 <= length raw)%nat ->
  (inject_Z lo <= window_mean raw i <= inject_Z hi)%Q.
Proof.
  intros Hall Hi. unfold window_mean.
  assert (Hw : Forall (fun z => lo <= z <= hi)%Z (take 5 (drop i raw))).
  { apply List.Forall_forall. intros z Hz.
    rewrite List.Forall_forall in Hall. apply Hall.
    apply list_elem_of_In in Hz. apply list_elem_of_In.
    rewrite <- (take_drop i raw). apply elem_of_app. right.
    rewrite <- (take_drop 5 (drop i raw)). apply elem_of_app. now left. }
  pose proof (sum_bounds lo hi _ Hw) as Hs.
  rewrite length_take, length_drop in Hs.
  replace (Nat.min 5 (length raw - i)) with 5%nat in Hs by lia.
  change (inject_Z (Z.of_nat 5)) with 5%Q in Hs.
  split.
  - apply Qle_shift_div_l; lra.
  - apply Qle_shift_div_r; lra.
Qed.

Lemma filtered_in_range (lo hi : Z) (raw : list Z) :
  (5 <= length raw)%nat ->
  Forall (fun z => lo <= z <= hi)%Z raw ->
  exists filtered : list Q,
    pwv_script.ppg_filtered raw = Ok filtered /\
    length filtered = (length raw - 4)%nat /\
    forall i : nat, (i < length filtered)%nat ->
      (inject_Z lo <= at_ filtered i <= inject_Z hi)%Q.
Proof.
  intros Hn Hall.
  destruct (ppg_filtered_values_long raw Hn) as (f & Hf & Hl & Hv).
  exists f. split; [exact Hf|]. split; [exact Hl|].
  intros i Hi. rewrite (Hv i) by lia.
  apply window_mean_bounds; [exact Hall|lia].
Qed.



Lemma constant_channel_has_no_peaks (raw : list Z) (c : Z) (filtered : list Q) :
  Forall (fun z => z = c) raw ->
  pwv_script.ppg_filtered raw = Ok filtered ->
  pwv_script.systolic_peaks filtered = Ok [].
Proof.
  intros Hc Hf.
  destruct (Nat.lt_ge_cases (length raw) 5) as [Hs|Hl].
  - destruct (Nat.eq_dec (length raw) 0) as [H0|H0].
    + destruct raw; [discriminate|discriminate].
    + destruct (short_filtered_is_flat raw ltac:(lia)) as (f & Hf' & _ & Hp).
      rewrite Hf in Hf'. now injection Hf' as <-.
  - destruct (filtered_in_range c c raw Hl) as (f & Hf' & Hlen & Hb).
    { eapply Forall_impl; [exact Hc|]. intros z ->. lia. }
    rewrite Hf in Hf'. injection Hf' as <-.
    apply flat_sequence_has_no_peaks. intros i j Hi Hj.
    pose proof (Hb i Hi). pose proof (Hb j Hj). lra.
Qed.

Lemma transit_times_nil_r (timestamps indices : list Z) :
  transit_times_spec timestamps indices [] = [].
Proof. unfold transit_times_spec, transit. now destruct indices. Qed.

Lemma process_csv_file_without_peaks (data : list pwv_script.sample) (distance_cm : Q)
      (r : pwv_script.analysis) (f1 f2 : list Q) :
  pwv_script.ppg_filtered (pwv_script.ppg1 data) = Ok f1 ->
  pwv_script.ppg_filtered (pwv_script.ppg2 data) = Ok f2 ->
  pwv_script.systolic_peaks f1 = Ok [] \/ pwv_script.systolic_peaks f2 = Ok [] ->
  pwv_script.process_csv_file data distance_cm = Ok r ->
  r = empty_analysis.
Proof.
  intros Hf1 Hf2 Hflat H. unfold pwv_script.process_csv_file in H.
  rewrite Hf1, Hf2 in H. cbn [bind] in H.
  apply bind_ok in H as (g1 & _ & H). apply bind_ok in H as (g2 & _ & H).
  apply bind_ok in H as (p1 & Hp1 & H). apply bind_ok in H as (p2 & Hp2 & H).
  apply bind_ok in H as (d1 & Hd1 & H). apply bind_ok in H as (d2 & Hd2 & H).
  apply bind_ok in H as (ps & Hs & H). apply bind_ok in H as (pd & Hd & H).
  injection H as <-.
  assert (ps = [] /\ pd = []) as (-> & ->).
  { destruct Hflat as [E|E].
    - rewrite E in Hp1. injection Hp1 as <-.
      injection Hd1 as <-. injection Hs as <-. injection Hd as <-. now split.
    - rewrite E in Hp2. injection Hp2 as <-. injection Hd2 as <-.
      unfold pwv_script.calculate_ptt in Hs, Hd.
      rewrite Nat.min_0_r in Hs, Hd. injection Hs as <-. injection Hd as <-.
      now split. }
  unfold empty_analysis. now rewrite pwv_nil.
Qed.

(** X13: a channel that carries the same reading in every row yields no
    result: whenever [process_csv_file] returns on such a table, both
    transit-time sets and both velocity sets are empty (a flat signal has no
    peak, and transit times are paired by position). *)
Theorem flat_channel_yields_nothing (data : list pwv_script.sample) (distance_cm : Q)
        (c : Z) (r : pwv_script.analysis) :
  Forall (fun z => z = c) (pwv_script.ppg1 data) \/
  Forall (fun z => z = c) (pwv_script.ppg2 data) ->
  pwv_script.process_csv_file data distance_cm = Ok r ->
  r = empty_analysis.
Proof.
  intros Hflat H.
  assert (Hf : exists f1 f2 : list Q,
             pwv_script.ppg_filtered (pwv_script.ppg1 data) = Ok f1 /\
             pwv_script.ppg_filtered (pwv_script.ppg2 data) = Ok f2).
  { unfold pwv_script.process_csv_file in H.
    apply bind_ok in H as (f1 & Hf1 & H). apply bind_ok in H as (f2 & Hf2 & _).
    now exists f1, f2. }
  destruct Hf as (f1 & f2 & Hf1 & Hf2).
  apply (process_csv_file_without_peaks data distance_cm r f1 f2 Hf1 Hf2); [|exact H].
  destruct Hflat as [Hc|Hc]; [left|right];
    eapply constant_channel_has_no_peaks; eassumption.
Qed.

Lemma flat_channel_yields_nothing_witness :
  pwv_script.process_csv_file stuck_table 20 = Ok empty_analysis.
Proof.
  assert (H : exists r : pwv_script.analysis,
             pwv_script.process_csv_file stuck_table 20 = Ok r)
    by (eexists; vm_compute; reflexivity).
  destruct H as (r & Hr). rewrite Hr. f_equal.
  apply (flat_channel_yields_nothing stuck_table 20 512%Z r); [|exact Hr].
  left. vm_compute. repeat constructor.
Defined.

(** ** Clock origin *)







(** ** Channel order *)

Lemma index_only_IndexError {A : Type} (a : list A) (i : Z) (e : exn) :
  np.index a i = Raise e -> e = IndexError.
Proof.
  unfold np.index. destruct (_ && _)%bool; [destruct (a !! _)|]; congruence.
Qed.

Lemma ptt_loop_only_IndexError (timestamps ppg1_peaks ppg2_peaks : list Z) (e : exn) :
  forall (range : list nat) (acc : list Z),
    script.ptt_loop timestamps ppg1_peaks ppg2_peaks range acc = Raise e ->
    e = IndexError.
Proof.
  induction range as [|i range IH]; intros acc; cbn [script.ptt_loop]; [discriminate|].
  destruct (np.index ppg2_peaks _) as [i2|] eqn:E2; cbn [bind];
    [|intros [= <-]; exact (index_only_IndexError _ _ _ E2)].
  destruct (np.index timestamps i2) as [t2|] eqn:T2; cbn [bind];
    [|intros [= <-]; exact (index_only_IndexError _ _ _ T2)].
  destruct (np.index ppg1_peaks _) as [i1|] eqn:E1; cbn [bind];
    [|intros [= <-]; exact (index_only_IndexError _ _ _ E1)].
  destruct (np.index timestamps i1) as [t1|] eqn:T1; cbn [bind];
    [|intros [= <-]; exact (index_only_IndexError _ _ _ T1)].
  apply IH.
Qed.









(** ** The live plot *)









(** ** The two recorders on the same stream *)







(** ** The raw-data file of ppg_plotter.py *)

Lemma digits_value_uint (d : uint) :
  forall acc : Z,
    builtins.digits_value acc true (list_ascii_of_string (NilEmpty.string_of_uint d))
    = Some (uint_value d acc).
Proof.
  induction d; intros acc; cbn [NilEmpty.string_of_uint list_ascii_of_string uint_value];
    [reflexivity|..];
    (etransitivity; [|apply IHd]); cbn [builtins.digits_value];
    match goal with
    | |- context [builtins.is_digit ?c] => change (builtins.is_digit c) with true
    end;
    match goal with
    | |- context [Z.of_nat (nat_of_ascii ?c)] =>
        let v := eval vm_compute in (Z.of_nat (nat_of_ascii c)) in
        change (Z.of_nat (nat_of_ascii c)) with v
    end;
    cbv iota; f_equal; lia.
Qed.

Lemma digits_value_uint_start (d : uint) :
  d <> Nil ->
  builtins.digits_value 0 false (list_ascii_of_string (NilEmpty.string_of_uint d))
  = Some (uint_value d 0).
Proof.
  destruct d; [congruence|..]; intros _;
    cbn [NilEmpty.string_of_uint list_ascii_of_string uint_value];
    (etransitivity; [|apply digits_value_uint]); reflexivity.
Qed.

Lemma of_uint_acc_value (d : uint) :
  forall acc : positive, Z.pos (Pos.of_uint_acc d acc) = uint_value d (Z.pos acc).
Proof.
  induction d; intros acc; cbn [Pos.of_uint_acc uint_value]; [reflexivity|..];
    rewrite IHd; f_equal; lia.
Qed.

Lemma of_uint_value (d : uint) : Z.of_N (Pos.of_uint d) = uint_value d 0.
Proof.
  induction d; cbn [Pos.of_uint uint_value]; [reflexivity|exact IHd|..];
    cbn [Z.of_N]; rewrite of_uint_acc_value; reflexivity.
Qed.

Lemma to_uint_value (p : positive) : uint_value (Pos.to_uint p) 0 = Z.pos p.
Proof. now rewrite <- of_uint_value, DecimalPos.Unsigned.of_to. Qed.

Lemma uint_plain (d : uint) : plain (NilEmpty.string_of_uint d).
Proof.
  unfold plain.
  induction d; cbn [NilEmpty.string_of_uint list_ascii_of_string];
    constructor; try exact IHd; split; reflexivity.
Qed.

Lemma uint_first_digit (d : uint) :
  d <> Nil ->
  exists (c : ascii) (s : list ascii),
    list_ascii_of_string (NilEmpty.string_of_uint d) = c :: s /\
    Ascii.eqb c "-" = false /\ Ascii.eqb c "+" = false.
Proof.
  destruct d; [congruence|..]; intros _;
    cbn [NilEmpty.string_of_uint list_ascii_of_string]; eexists _, _;
    (split; [reflexivity|split; reflexivity]).
Qed.

Lemma lstrip_plain (s : list ascii) :
  Forall (fun c => Ascii.eqb c ","%char = false /\ builtins.is_space c = false) s ->
  builtins.lstrip s = s.
Proof.
  intros H. destruct H as [|c s (_ & Hc) _]; [reflexivity|].
  cbn [builtins.lstrip]. now rewrite Hc.
Qed.

Lemma strip_plain (s : string) :
  plain s -> builtins.strip (list_ascii_of_string s) = list_ascii_of_string s.
Proof.
  unfold plain, builtins.strip. intros H.
  rewrite (lstrip_plain _ H), lstrip_plain, rev_involutive; [reflexivity|].
  now apply Forall_rev.
Qed.

Lemma string_of_to_uint (p : positive) :
  NilZero.string_of_uint (Pos.to_uint p) = NilEmpty.string_of_uint (Pos.to_uint p).
Proof.
  pose proof (Unsigned.to_uint_nonnil p) as Hn. unfold NilZero.string_of_uint.
  now destruct (Pos.to_uint p).
Qed.

Lemma str_plain (z : Z) : plain (builtins.str z).
Proof.
  unfold builtins.str.
  destruct z as [|p|p]; cbn [Z.to_int NilZero.string_of_int].
  - repeat constructor.
  - rewrite string_of_to_uint. apply uint_plain.
  - rewrite string_of_to_uint. unfold plain. cbn [list_ascii_of_string].
    constructor; [split; reflexivity|]. apply uint_plain.
Qed.

(** [int(str(z)) == z] *)
Lemma int_str (z : Z) : builtins.int (builtins.str z) = Some z.
Proof.
  unfold builtins.int. rewrite (strip_plain _ (str_plain z)). unfold builtins.str.
  destruct z as [|p|p]; cbn [Z.to_int NilZero.string_of_int]; [reflexivity|..].
  - pose proof (Unsigned.to_uint_nonnil p) as Hn.
    rewrite string_of_to_uint.
    destruct (uint_first_digit _ Hn) as (c & s & E & Hm & Hp).
    pose proof (digits_value_uint_start _ Hn) as Hv. rewrite E in Hv. rewrite E, Hm, Hp, Hv.
    now rewrite to_uint_value.
  - pose proof (Unsigned.to_uint_nonnil p) as Hn.
    rewrite string_of_to_uint.
    cbn [list_ascii_of_string]. change (Ascii.eqb "-" "-") with true. cbv iota.
    rewrite (digits_value_uint_start _ Hn), to_uint_value. reflexivity.
Qed.

Lemma split_comma_plain (s : string) :
  plain s ->
  builtins.split_comma s = [s] /\
  forall rest : string,
    builtins.split_comma (s ++ String "," rest) = s :: builtins.split_comma rest.
Proof.
  unfold plain. induction s as [|c s IH]; cbn [list_ascii_of_string]; intros H.
  - split; [reflexivity|]. intros rest. reflexivity.
  - inversion H as [|? ? (Hc & _) Hs]; subst. destruct (IH Hs) as (E1 & E2).
    split.
    + cbn [builtins.split_comma]. now rewrite Hc, E1.
    + intros rest. cbn [builtins.split_comma String.append]. now rewrite Hc, E2.
Qed.

(** A written line carries the sample it was written from. *)
Lemma written_line_parses (t a b : Z) :
  parse_sample builtins.int
    (builtins.str t ++ "," ++ builtins.str a ++ "," ++ builtins.str b)%string
  = Some (t, a, b).
Proof.
  unfold parse_sample.
  change (builtins.str t ++ "," ++ builtins.str a ++ "," ++ builtins.str b)%string
    with (builtins.str t ++ String "," (builtins.str a ++ String "," (builtins.str b)))%string.
  destruct (split_comma_plain _ (str_plain t)) as (_ & ->).
  destruct (split_comma_plain _ (str_plain a)) as (_ & ->).
  destruct (split_comma_plain _ (str_plain b)) as (-> & _).
  unfold script.unpack_ints. now rewrite !int_str.
Qed.

Lemma write_rows_replay (r : ppg_plotter.recording) :
  recording_aligned r ->
  forall (m k : nat) (file : list string),
    (k + m)%nat = length (ppg_plotter.timestamps r) ->
    exists rows : list string,
      ppg_plotter.write_rows r (seq k m) file = Ok (file ++ rows) /\
      length rows = m /\
      column1 (samples builtins.int rows) = drop k (ppg_plotter.timestamps r) /\
      column2 (samples builtins.int rows) = drop k (ppg_plotter.sensor1_values r) /\
      column3 (samples builtins.int rows) = drop k (ppg_plotter.sensor2_values r).
Proof.
  intros (A1 & A2). induction m as [|m IH]; intros k file Hk;
    cbn [seq ppg_plotter.write_rows].
  - exists []. rewrite app_nil_r, !drop_ge by lia. repeat split.
  - destruct (lookup_lt_is_Some_2 (ppg_plotter.timestamps r) k) as [t Ht]; [lia|].
    destruct (lookup_lt_is_Some_2 (ppg_plotter.sensor1_values r) k) as [a Ha]; [lia|].
    destruct (lookup_lt_is_Some_2 (ppg_plotter.sensor2_values r) k) as [b Hb]; [lia|].
    rewrite (index_of_nat _ _ _ Ht), (index_of_nat _ _ _ Ha), (index_of_nat _ _ _ Hb).
    cbn [bind].
    destruct (IH (S k) (file ++ [(builtins.str t ++ "," ++ builtins.str a ++ ","
                                  ++ builtins.str b)%string]) ltac:(lia))
      as (rows & Hr & Hl & H1 & H2 & H3).
    eexists (_ :: rows). rewrite Hr, <- app_assoc. split; [reflexivity|].
    split; [simpl; lia|].
    rewrite samples_cons, written_line_parses.
    rewrite (drop_S _ _ _ Ht), (drop_S _ _ _ Ha), (drop_S _ _ _ Hb).
    unfold column1, column2, column3 in *. cbn [map fst snd].
    now rewrite H1, H2, H3.
Qed.

(** X19: the raw-data file of [ppg_plotter.main] replays to the recording.
    For three lists of one length holding int64 values the writer never
    raises; the file has the header and one line per sample; fed back to
    the line parser of the recorders ([split(',')], three fields, [int]),
    the header is skipped and the data lines yield exactly the recorded
    timestamps and readings, in order. *)
Theorem recording_file_replays (r : ppg_plotter.recording) :
  recording_aligned r ->
  Forall int64 (ppg_plotter.timestamps r ++ ppg_plotter.sensor1_values r
                  ++ ppg_plotter.sensor2_values r) ->
  exists rows : list string,
    ppg_plotter.write_csv r = Ok ("timestamp,sensor1,sensor2"%string :: rows) /\
    length rows = length (ppg_plotter.timestamps r) /\
    samples builtins.int ("timestamp,sensor1,sensor2"%string :: rows)
    = samples builtins.int rows /\
    column1 (samples builtins.int rows) = ppg_plotter.timestamps r /\
    column2 (samples builtins.int rows) = ppg_plotter.sensor1_values r /\
    column3 (samples builtins.int rows) = ppg_plotter.sensor2_values r.
Proof.
  intros Ha _.
  destruct (write_rows_replay r Ha (length (ppg_plotter.timestamps r)) 0
              ["timestamp,sensor1,sensor2"%string] eq_refl)
    as (rows & Hr & Hl & H1 & H2 & H3).
  exists rows. split; [exact Hr|]. split; [exact Hl|]. split; [reflexivity|].
  now rewrite H1, H2, H3.
Qed.

Lemma recording_file_replays_witness :
  exists rows : list string,
    ppg_plotter.write_csv {| ppg_plotter.timestamps := [0; 20]%Z;
                             ppg_plotter.sensor1_values := [510; 512]%Z;
                             ppg_plotter.sensor2_values := [498; -3]%Z |}
    = Ok ("timestamp,sensor1,sensor2"%string :: rows) /\
    column3 (samples builtins.int rows) = [498; -3]%Z.
Proof.
  destruct (recording_file_replays
              {| ppg_plotter.timestamps := [0; 20]%Z;
                 ppg_plotter.sensor1_values := [510; 512]%Z;
                 ppg_plotter.sensor2_values := [498; -3]%Z |})
    as (rows & Hr & _ & _ & _ & _ & H3).
  - split; reflexivity.
  - repeat constructor; unfold int64; lia.
  - exists rows. split; [exact Hr|exact H3].
Defined.

(** ** How many beats a recording can yield *)

Lemma spaced_reach (rest : list nat) :
  forall p bound : nat,
    StronglySorted lt (p :: rest) ->
    (forall a b : nat, a ∈ p :: rest -> b ∈ p :: rest -> (a < b)%nat ->
                       (30 <= Z.of_nat b - Z.of_nat a)%Z) ->
    (forall a : nat, a ∈ p :: rest -> (a < bound)%nat) ->
    (p + 30 * length rest < bound)%nat.
Proof.
  induction rest as [|q rest IH]; intros p bound Hs Hd Hb.
  - simpl. rewrite Nat.add_0_r. apply Hb, elem_of_cons. now left.
  - inversion Hs as [|? ? Hs' Hlt]; subst. inversion Hlt as [|? ? Hpq _]; subst.
    assert (Hq : (30 <= Z.of_nat q - Z.of_nat p)%Z).
    { apply Hd; [apply elem_of_cons; now left| |exact Hpq].
      apply elem_of_cons. right. apply elem_of_cons. now left. }
    assert (H := IH q bound Hs'
                   ltac:(intros a b Ha Hb'; apply Hd; apply elem_of_cons; now right)
                   ltac:(intros a Ha; apply Hb; apply elem_of_cons; now right)).
    cbn [length]. lia.
Qed.

(** At most one systolic peak per 30 filtered samples. *)
Lemma systolic_peaks_count (filtered : list Q) (peaks : list nat) :
  pwv_script.systolic_peaks filtered = Ok peaks ->
  peaks <> [] ->
  (30 * length peaks <= length filtered + 27)%nat.
Proof.
  intros Hr Hne.
  destruct (find_peaks_height_distance filtered (np.mean filtered) 30 ltac:(lia))
    as (peaks' & Hr' & Hs & Hq & Hd).
  unfold pwv_script.systolic_peaks in Hr. rewrite Hr in Hr'. injection Hr' as <-.
  destruct peaks as [|p rest]; [congruence|].
  assert (Hloc : forall a : nat, a ∈ p :: rest -> local_maximum filtered a).
  { intros a Ha. apply peak_is_local_maximum. now destruct (Hq a Ha). }
  pose proof (spaced_reach rest p (length filtered - 1) Hs Hd
                ltac:(intros a Ha; destruct (Hloc a Ha) as (_ & H & _); lia)) as H.
  destruct (Hloc p ltac:(apply elem_of_cons; now left)) as (H1 & _).
  cbn [length]. lia.
Qed.

Lemma transit_times_count (timestamps indices1 indices2 : list Z) :
  (length (transit_times_spec timestamps indices1 indices2)
   <= Nat.min (length indices1) (length indices2))%nat.
Proof.
  unfold transit_times_spec. rewrite <- (transit_length timestamps). apply filter_length_le.
Qed.

Lemma pwv_count (distance_cm : Q) (ptt_values : list Z) :
  (length (pwv_script.pwv distance_cm ptt_values) <= length ptt_values)%nat.
Proof.
  unfold pwv_script.pwv. destruct (Qlt_bool 0 distance_cm); [|simpl; lia].
  destruct ptt_values; [simpl; lia|]. now rewrite length_map.
Qed.

(** X20: the minimal peak distance caps the number of beats.  Whenever
    [process_csv_file] returns on a table of [n] rows, it reports at most
    [(n + 23) / 30] systolic and at most as many diastolic transit times
    (systolic peaks lie at least 30 filtered samples apart, strictly inside
    the [n - 4] filtered samples, and there is at most one foot per peak),
    and never more velocities than transit times. *)
Theorem beats_are_limited_by_the_minimal_distance (data : list pwv_script.sample)
        (distance_cm : Q) (r : pwv_script.analysis) :
  pwv_script.process_csv_file data distance_cm = Ok r ->
  let beats := (length data + 23) / 30 in
  (length (pwv_script.ptt_systolic r) <= beats)%nat /\
  (length (pwv_script.ptt_diastolic r) <= beats)%nat /\
  (length (pwv_script.pwv_systolic r) <= length (pwv_script.ptt_systolic r))%nat /\
  (length (pwv_script.pwv_diastolic r) <= length (pwv_script.ptt_diastolic r))%nat.
Proof.
  intros Hr beats.
  destruct (Nat.lt_ge_cases (length data) 6) as [Hs|Hl].
  - destruct (Nat.eq_dec (length data) 0) as [H0|H0];
      [rewrite process_csv_file_five in Hr by (now left); discriminate|].
    destruct (Nat.eq_dec (length data) 5) as [H5|H5];
      [rewrite process_csv_file_five in Hr by (now right); discriminate|].
    rewrite process_csv_file_short in Hr by lia. injection Hr as <-.
    simpl. repeat split; lia.
  - destruct (process_csv_file_long data distance_cm Hl)
      as (f1 & f2 & p1 & p2 & d1 & d2 & Hf1 & Hf2 & Hp1 & Hp2 & Hd1 & Hd2 & Hr').
    rewrite Hr in Hr'. injection Hr' as ->.
    cbn [pwv_script.ptt_systolic pwv_script.ptt_diastolic
         pwv_script.pwv_systolic pwv_script.pwv_diastolic].
    assert (H1 : length (pwv_script.ppg1 data) = length data) by apply length_map.
    assert (Hlen1 : length f1 = (length data - 4)%nat).
    { destruct (ppg_filtered_values_long (pwv_script.ppg1 data) ltac:(lia))
        as (f & Hf & Hl1 & _).
      rewrite Hf1 in Hf. injection Hf as <-. lia. }
    assert (Hp : (length p1 <= beats)%nat).
    { destruct p1 as [|p rest]; [simpl; lia|].
      pose proof (systolic_peaks_count f1 (p :: rest) Hp1 ltac:(discriminate)) as H.
      unfold beats. apply Nat.div_le_lower_bound; lia. }
    destruct (diastolic_peaks_ok f1 p1) as (d1' & Hd1' & Hfeet & _).
    rewrite Hd1 in Hd1'. injection Hd1' as <-.
    pose proof (transit_times_count
                  (pwv_script.timestamps_filtered (pwv_script.timestamp_ms data))
                  (map Z.of_nat p1) (map Z.of_nat p2)) as Hs.
    pose proof (transit_times_count
                  (pwv_script.timestamps_filtered (pwv_script.timestamp_ms data))
                  d1 d2) as Hd.
    rewrite !length_map in Hs.
    split; [lia|]. split; [lia|]. split; apply pwv_count.
Qed.

Lemma beats_are_limited_by_the_minimal_distance_witness :
  exists r : pwv_script.analysis,
    pwv_script.process_csv_file scenario.table 20 = Ok r /\
    (length (pwv_script.ptt_systolic r) <= 5)%nat.
Proof.
  assert (H : exists r : pwv_script.analysis,
             pwv_script.process_csv_file scenario.table 20 = Ok r)
    by (eexists; vm_compute; reflexivity).
  destruct H as (r & Hr). exists r. split; [exact Hr|].
  exact (proj1 (beats_are_limited_by_the_minimal_distance scenario.table 20 r Hr)).
Defined.
